(** * FinTrack: the derivation engine and the mutation handlers

    A shallow embedding of [src/App.tsx] (the memoised derivations and the
    handlers of the [App] component) and of the insight service
    ([getFinancialInsights]), with the records of [src/types.ts].

    JavaScript numbers are IEEE 754 binary64 values: they are modelled by
    Rocq's primitive floats, so that division by zero, [NaN] and the
    infinities behave as they do in the program.  Strings are byte strings;
    the functions of the host that the program calls on them and on arrays
    ([String.prototype.toLowerCase], [Date], [Array.prototype.sort]) are
    parameters of the view that uses them.
    Arrays are lists; [filter], [map] and [reduce] are [List.filter],
    [List.map] and [List.fold_left]. *)

From Stdlib Require Import List Bool Arith ZArith Lia.
From Stdlib Require Import Ascii String.
From Stdlib Require Import Floats.
From Stdlib Require Import Sorting.Sorted Sorting.Permutation.
Import ListNotations.

Set Implicit Arguments.
Local Open Scope string_scope.
Local Open Scope list_scope.

(** ** The JavaScript operations the program relies on *)

Module JS.

(** [ToBoolean] on a number: [+0], [-0] and [NaN] are falsy. *)
Definition truthy_number (x : float) : bool :=
  negb (is_zero x || is_nan x).

(** [ToBoolean] on a string: only the empty string is falsy. *)
Definition truthy_string (s : string) : bool :=
  match s with
  | EmptyString => false
  | String _ _ => true
  end.

(** [ToBoolean] on a property that may be [undefined]. *)
Definition truthy_opt {A : Type} (truthy : A -> bool) (o : option A) : bool :=
  match o with
  | Some a => truthy a
  | None => false
  end.

(** [o || dflt] on an optional string: the default replaces [undefined]
    and the empty string. *)
Definition or_string (o : option string) (dflt : string) : string :=
  match o with
  | Some s => if truthy_string s then s else dflt
  | None => dflt
  end.

(** [Number(x)] on an optional number: the identity on numbers, [NaN] on
    [undefined]. *)
Definition Number (o : option float) : float :=
  match o with
  | Some x => x
  | None => nan
  end.

Definition is_neg_zero (x : float) : bool :=
  match classify x with
  | NZero => true
  | _ => false
  end.

Definition is_pos_zero (x : float) : bool :=
  match classify x with
  | PZero => true
  | _ => false
  end.

(** [Math.min(...args)] as ECMAScript defines it: [NaN] if an argument is
    [NaN]; otherwise the least argument, from [+Infinity], with [-0] below
    [+0]. *)
Definition Math_min (args : list float) : float :=
  if existsb is_nan args then nan
  else fold_left
         (fun lowest number =>
            if is_neg_zero number && is_pos_zero lowest then number
            else if (number <? lowest)%float then number
            else lowest)
         args infinity.

(** [Number.isFinite]. *)
Definition isFinite (x : float) : bool := is_finite x.

(** [s.startsWith(p)]. *)
Fixpoint startsWith (p s : string) : bool :=
  match p, s with
  | EmptyString, _ => true
  | String _ _, EmptyString => false
  | String a p', String b s' => Ascii.eqb a b && startsWith p' s'
  end.

(** [s.includes(sub)]: [sub] occurs in [s] at some position. *)
Fixpoint includes (s sub : string) : bool :=
  startsWith sub s ||
  match s with
  | EmptyString => false
  | String _ s' => includes s' sub
  end.

(** [arr.slice(start)]: a negative [start] counts from the end, and both
    ends are clamped to the array. *)
Definition slice {A : Type} (start : Z) (arr : list A) : list A :=
  let len := Z.of_nat (List.length arr) in
  let k := if (start <? 0)%Z then Z.max (len + start) 0 else Z.min start len in
  skipn (Z.to_nat k) arr.

(** The stable sort by a comparator: the elements in the order of [cmp],
    those that compare equal in their original order, computed by
    insertion.  [cmp a b] stands for the sign of the comparator's result:
    [Lt] when negative ([a] first), [Gt] when positive ([b] first), [Eq]
    when zero or [NaN]. *)
Section Sort.
Variable A : Type.
Variable cmp : A -> A -> comparison.

Fixpoint sort_insert (x : A) (l : list A) : list A :=
  match l with
  | [] => [x]
  | y :: l' =>
      match cmp x y with
      | Gt => y :: sort_insert x l'
      | _ => x :: l
      end
  end.

Fixpoint stable_sort (l : list A) : list A :=
  match l with
  | [] => []
  | x :: l' => sort_insert x (stable_sort l')
  end.

Definition is_Eq (c : comparison) : bool :=
  match c with Eq => true | _ => false end.
Definition is_Lt (c : comparison) : bool :=
  match c with Lt => true | _ => false end.
Definition is_Gt (c : comparison) : bool :=
  match c with Gt => true | _ => false end.

(** The conditions ECMAScript puts on a consistent comparator, at three
    values: [a] equals itself; equality is symmetric and transitive; each
    of the two strict orders is transitive. *)
Definition consistent_at (a b c : A) : bool :=
  is_Eq (cmp a a)
  && implb (is_Eq (cmp a b)) (is_Eq (cmp b a))
  && implb (is_Eq (cmp a b) && is_Eq (cmp b c)) (is_Eq (cmp a c))
  && implb (is_Lt (cmp a b) && is_Lt (cmp b c)) (is_Lt (cmp a c))
  && implb (is_Gt (cmp a b) && is_Gt (cmp b c)) (is_Gt (cmp a c)).

(** [cmp] is a consistent comparator for the elements of [l]. *)
Definition consistent_on (l : list A) : bool :=
  forallb (fun a =>
             forallb (fun b => forallb (fun c => consistent_at a b c) l) l)
          l.
End Sort.

(** What the program has of [arr.sort(cmp)]: the array holds the elements
    it held, moved; when [cmp] is a consistent comparator for them,
    ECMAScript requires that they come out in the order of [cmp], stably,
    which is the list [stable_sort] computes; for any other comparator
    ECMAScript leaves the order to the implementation. *)
Definition sort_contract {A : Type}
    (arraySort : (A -> A -> comparison) -> list A -> list A) : Prop :=
  forall (cmp : A -> A -> comparison) (l : list A),
    Permutation (arraySort cmp l) l
    /\ (consistent_on cmp l = true -> arraySort cmp l = stable_sort cmp l).

(** [arr.slice(start, end)]: each bound is relative to the end when
    negative and clamped to the array; nothing is taken when the end is
    not after the start. *)
Definition slice_range {A : Type} (start stop : Z) (arr : list A) : list A :=
  let len := Z.of_nat (List.length arr) in
  let relative i :=
    if (i <? 0)%Z then Z.max (len + i) 0 else Z.min i len in
  let k := relative start in
  let final := relative stop in
  firstn (Z.to_nat (Z.max (final - k) 0)) (skipn (Z.to_nat k) arr).

(** [arr.find(p)]. *)
Definition find {A : Type} (p : A -> bool) (arr : list A) : option A :=
  List.find p arr.

End JS.

(** ** Plain objects used as maps

    The own properties of an object created by [{}] and written by
    [data[k] = v], in the order of their creation.  [Object.entries] lists
    the array-index keys first, in ascending numeric order, then the other
    keys in the order of their creation. *)

Module JSObject.

Definition t (V : Type) : Type := list (string * V).

Fixpoint get_own {V : Type} (k : string) (o : t V) : option V :=
  match o with
  | [] => None
  | (k', v) :: o' => if String.eqb k' k then Some v else get_own k o'
  end.

(** Writing an own property: an existing one keeps its place. *)
Fixpoint set_own {V : Type} (k : string) (v : V) (o : t V) : t V :=
  match o with
  | [] => [(k, v)]
  | (k', v') :: o' =>
      if String.eqb k' k then (k, v) :: o' else (k', v') :: set_own k v o'
  end.

Definition digit_value (c : ascii) : option N :=
  let n := N_of_ascii c in
  if ((48 <=? n) && (n <=? 57))%N then Some (n - 48)%N else None.

Fixpoint digits_value (s : string) (acc : N) : option N :=
  match s with
  | EmptyString => Some acc
  | String c rest =>
      match digit_value c with
      | Some d => digits_value rest (acc * 10 + d)%N
      | None => None
      end
  end.

(** A key is an array index when it is the canonical decimal text of an
    integer from 0 to 2^32 - 2. *)
Definition array_index (k : string) : option N :=
  match k with
  | EmptyString => None
  | String c rest =>
      if Ascii.eqb c "0"
      then match rest with
           | EmptyString => Some 0%N
           | String _ _ => None
           end
      else match digits_value k 0 with
           | Some n => if (n <? 4294967295)%N then Some n else None
           | None => None
           end
  end.

Definition is_array_index (k : string) : bool :=
  match array_index k with
  | Some _ => true
  | None => false
  end.

Definition by_index {V : Type} (a b : string * V) : comparison :=
  match array_index (fst a), array_index (fst b) with
  | Some i, Some j => (i ?= j)%N
  | _, _ => Eq
  end.

(** [Object.entries(o)]. *)
Definition entries {V : Type} (o : t V) : list (string * V) :=
  JS.stable_sort by_index (filter (fun kv => is_array_index (fst kv)) o)
  ++ filter (fun kv => negb (is_array_index (fst kv))) o.

End JSObject.

(** ** The records of [types.ts] *)

Inductive TransactionType : Type := income | expense.

Definition TransactionType_eqb (a b : TransactionType) : bool :=
  match a, b with
  | income, income | expense, expense => true
  | _, _ => false
  end.

Module Transaction.
Record t : Type := mk {
  id : string;
  date : string;
  amount : float;
  category : string;
  description : string;
  type : TransactionType
}.
End Transaction.

Module Category.
Record t : Type := mk {
  id : string;
  name : string;
  icon : string;
  color : string;
  type : TransactionType
}.
End Category.

Module Budget.
Record t : Type := mk {
  id : string;
  category : string;
  limit : float
}.
End Budget.

Module Bill.
Record t : Type := mk {
  id : string;
  name : string;
  amount : float;
  dueDate : string;
  category : string;
  isPaid : bool
}.
End Bill.

Inductive InvestmentCategory : Type := Stock | Crypto | RealEstate | Other.

Module Investment.
Record t : Type := mk {
  id : string;
  assetName : string;
  symbol : string;
  quantity : float;
  purchasePrice : float;
  currentPrice : float;
  purchaseDate : string;
  category : InvestmentCategory
}.
End Investment.

Definition DEFAULT_CATEGORIES : list Category.t :=
  [ Category.mk "1" "Food & Dining" "Utensils" "#EF4444" expense;
    Category.mk "2" "Shopping" "ShoppingBag" "#F59E0B" expense;
    Category.mk "3" "Transportation" "Car" "#10B981" expense;
    Category.mk "4" "Entertainment" "Film" "#8B5CF6" expense;
    Category.mk "5" "Health" "HeartPulse" "#EC4899" expense;
    Category.mk "6" "Utilities" "Zap" "#3B82F6" expense;
    Category.mk "7" "Salary" "Wallet" "#10B981" income;
    Category.mk "8" "Investment" "TrendingUp" "#6366F1" income;
    Category.mk "9" "Other" "MoreHorizontal" "#6B7280" expense ].

(** [DEFAULT_CATEGORIES[0].name]. *)
Definition first_category_name : string :=
  match DEFAULT_CATEGORIES with
  | c :: _ => Category.name c
  | [] => EmptyString
  end.

(** ** The insight service ([services/gemini.ts]) *)

Module Gemini.

(** One entry of [summary]: a transaction reduced to four fields. *)
Record SummaryItem : Type := mkItem {
  type : TransactionType;
  amount : float;
  category : string;
  date : string
}.

Definition summarize (t : Transaction.t) : SummaryItem :=
  mkItem (Transaction.type t) (Transaction.amount t)
         (Transaction.category t) (Transaction.date t).

(** [transactions.slice(-20).map(t => ({type, amount, category, date}))]. *)
Definition summary (transactions : list Transaction.t) : list SummaryItem :=
  map summarize (JS.slice (-20) transactions).

(** What [generateContent] does with a request: it throws ([Failed]), or
    answers with a text that may be absent. *)
Inductive Response : Type :=
| Failed
| Answered (text : option string).

(** [getFinancialInsights].  The collaborator is the parameter
    [generateContent]; the prompt is a fixed text around
    [JSON.stringify(summary)], so the request is identified with the
    summary. *)
Definition getFinancialInsights
    (generateContent : list SummaryItem -> Response)
    (transactions : list Transaction.t) : string :=
  match transactions with
  | [] => "Start adding transactions to get AI-powered financial insights!"
  | _ :: _ =>
      match generateContent (summary transactions) with
      | Answered text =>
          JS.or_string text "Unable to generate insights at this time."
      | Failed => "Error connecting to AI advisor. Please try again later."
      end
  end.

End Gemini.

(** ** The [App] component: state, derivations, handlers *)

(** [Partial<Transaction>], the state of the add-transaction form.  Every
    property may be absent.  [type] is written by each [setNewTx] of the
    component (the initial state, the reset, and the form controls, which
    spread the previous state), and the handler casts it without a default:
    it is modelled as present. *)
Module PartialTransaction.
Record t : Type := mk {
  id : option string;
  date : option string;
  amount : option float;
  category : option string;
  description : option string;
  type : TransactionType
}.
End PartialTransaction.

(** [Partial<Budget>] and [Partial<Investment>], the states of the two other
    forms used below.  The investment form's [category] is cast as the
    transaction form's [type] is. *)
Module PartialBudget.
Record t : Type := mk {
  id : option string;
  category : option string;
  limit : option float
}.
End PartialBudget.

Module PartialInvestment.
Record t : Type := mk {
  id : option string;
  assetName : option string;
  symbol : option string;
  quantity : option float;
  purchasePrice : option float;
  currentPrice : option float;
  purchaseDate : option string;
  category : InvestmentCategory
}.
End PartialInvestment.

(** [Partial<Bill>], the state of the add-bill form. *)
Module PartialBill.
Record t : Type := mk {
  id : option string;
  name : option string;
  amount : option float;
  dueDate : option string;
  category : option string;
  isPaid : option bool
}.
End PartialBill.

(** An element of [chartData]. *)
Module ChartPoint.
Record t : Type := mk {
  name : string;
  income : float;
  expense : float
}.
End ChartPoint.

(** A value held by the object of [categoryData]: a number, or the text that
    [+] makes when its left operand is not a number. *)
Inductive CategoryValue : Type :=
| Num (x : float)
| Text.

(** An element of [categoryData]. *)
Module CategoryTotal.
Record t : Type := mk {
  name : string;
  value : CategoryValue
}.
End CategoryTotal.

Module Stats.
Record t : Type := mk {
  balance : float;
  income : float;
  expenses : float
}.
End Stats.

(** An element of [budgetProgress]: the budget's own fields, [spent] and
    [percentage]. *)
Module BudgetProgress.
Record t : Type := mk {
  id : string;
  category : string;
  limit : float;
  spent : float;
  percentage : float
}.
End BudgetProgress.

Module InvestmentStats.
Record t : Type := mk {
  totalInvested : float;
  currentValue : float;
  profitLoss : float;
  profitLossPercentage : float
}.
End InvestmentStats.

Module App.

(** The pieces of [useState] the handlers below read or write. *)
Record State : Type := mkState {
  transactions : list Transaction.t;
  bills : list Bill.t;
  budgets : list Budget.t;
  investments : list Investment.t;
  isModalOpen : bool;
  newTx : PartialTransaction.t;
  newBudget : PartialBudget.t;
  newInvestment : PartialInvestment.t
}.

(** The form state the component starts with and resets to; [today] is
    [format(new Date(), 'yyyy-MM-dd')]. *)
Definition initialNewTx (today : string) : PartialTransaction.t :=
  PartialTransaction.mk None (Some today) (Some 0%float)
                        (Some first_category_name) (Some EmptyString)
                        expense.

Definition initialNewBudget : PartialBudget.t :=
  PartialBudget.mk None (Some first_category_name) (Some 0%float).

Definition initialNewInvestment (today : string) : PartialInvestment.t :=
  PartialInvestment.mk None (Some EmptyString) (Some EmptyString)
                       (Some 0%float) (Some 0%float) (Some 0%float)
                       (Some today) Stock.

Definition is_income (t : Transaction.t) : bool :=
  TransactionType_eqb (Transaction.type t) income.

Definition is_expense (t : Transaction.t) : bool :=
  TransactionType_eqb (Transaction.type t) expense.

(** [.reduce((acc, t) => acc + t.amount, 0)]. *)
Definition reduce_amounts (l : list Transaction.t) : float :=
  fold_left (fun acc t => (acc + Transaction.amount t)%float) l 0%float.

(** [stats]. *)
Definition stats (transactions : list Transaction.t) : Stats.t :=
  let income := reduce_amounts (filter is_income transactions) in
  let expenses := reduce_amounts (filter is_expense transactions) in
  Stats.mk (income - expenses)%float income expenses.

(** [budgetProgress]. *)
Definition budgetProgress (budgets : list Budget.t)
    (transactions : list Transaction.t) : list BudgetProgress.t :=
  map (fun budget =>
         let spent :=
           reduce_amounts
             (filter (fun t => is_expense t &&
                               String.eqb (Transaction.category t)
                                          (Budget.category budget))
                     transactions) in
         BudgetProgress.mk
           (Budget.id budget) (Budget.category budget) (Budget.limit budget)
           spent
           (JS.Math_min [((spent / Budget.limit budget) * 100)%float;
                         100%float]))
      budgets.

(** [investmentStats]. *)
Definition investmentStats (investments : list Investment.t)
    : InvestmentStats.t :=
  let totalInvested :=
    fold_left (fun acc inv =>
                 (acc + Investment.purchasePrice inv
                        * Investment.quantity inv)%float)
              investments 0%float in
  let currentValue :=
    fold_left (fun acc inv =>
                 (acc + Investment.currentPrice inv
                        * Investment.quantity inv)%float)
              investments 0%float in
  let profitLoss := (currentValue - totalInvested)%float in
  let profitLossPercentage :=
    if (0 <? totalInvested)%float
    then ((profitLoss / totalInvested) * 100)%float
    else 0%float in
  InvestmentStats.mk totalInvested currentValue profitLoss
                     profitLossPercentage.

(** [performance], computed for each row of the investments table. *)
Definition performance (inv : Investment.t) : float :=
  (((Investment.currentPrice inv - Investment.purchasePrice inv)
    / Investment.purchasePrice inv) * 100)%float.

(** What the table shows for a row, [performance.toFixed(2)]: the decimal
    text of a finite number ([ShownNumber x] stands for the text of [x] with
    two digits), and the name of a non-finite one. *)
Inductive Shown : Type :=
| ShownNumber (x : float)
| ShownInfinity
| ShownNegInfinity
| ShownNaN.

Definition performanceCell (inv : Investment.t) : Shown :=
  let p := performance inv in
  if is_nan p then ShownNaN
  else if (p =? infinity)%float then ShownInfinity
  else if (p =? neg_infinity)%float then ShownNegInfinity
  else ShownNumber p.

Section Host.
(** The functions of the host that the filtered view calls:
    [toLowerCase s] is [s.toLowerCase()]; [arraySort cmp arr] is
    [arr.sort(cmp)] on a fresh array; [getTime s] is
    [new Date(s).getTime()], the time value of the date in milliseconds, an
    integer, or [None] for the [NaN] of an invalid date. *)
Variable toLowerCase : string -> string.
Variable arraySort :
  (Transaction.t -> Transaction.t -> comparison) ->
  list Transaction.t -> list Transaction.t.
Variable getTime : string -> option Z.

(** The search predicate of [filteredTransactions]. *)
Definition matchesQuery (searchQuery : string) (t : Transaction.t) : bool :=
  JS.includes (toLowerCase (Transaction.description t))
              (toLowerCase searchQuery)
  || JS.includes (toLowerCase (Transaction.category t))
                 (toLowerCase searchQuery).

(** The sign of [new Date(b.date).getTime() - new Date(a.date).getTime()].
    The difference of two time values has the sign of their exact
    difference; a [NaN] operand makes it [NaN], which [sort] reads as
    zero. *)
Definition byDateDesc (a b : Transaction.t) : comparison :=
  match getTime (Transaction.date b), getTime (Transaction.date a) with
  | Some tb, Some ta => (tb ?= ta)%Z
  | _, _ => Eq
  end.

(** [filteredTransactions]. *)
Definition filteredTransactions (transactions : list Transaction.t)
    (searchQuery : string) : list Transaction.t :=
  arraySort byDateDesc (filter (matchesQuery searchQuery) transactions).

(** The list of the dashboard, [filteredTransactions.slice(0, 5)]. *)
Definition recentTransactions (transactions : list Transaction.t)
    (searchQuery : string) : list Transaction.t :=
  JS.slice_range 0 5 (filteredTransactions transactions searchQuery).
End Host.

(** [handleAddTransaction].  [uuid] is the value of [crypto.randomUUID()]
    and [today] that of [format(new Date(), 'yyyy-MM-dd')] at the call. *)
Definition handleAddTransaction (uuid today : string) (s : State) : State :=
  let f := newTx s in
  if negb (JS.truthy_opt JS.truthy_number (PartialTransaction.amount f))
     || negb (JS.truthy_opt JS.truthy_string
                            (PartialTransaction.description f))
  then s
  else
    let transaction :=
      Transaction.mk
        uuid
        (JS.or_string (PartialTransaction.date f) today)
        (JS.Number (PartialTransaction.amount f))
        (JS.or_string (PartialTransaction.category f) "Other")
        (JS.or_string (PartialTransaction.description f) EmptyString)
        (PartialTransaction.type f) in
    mkState (transaction :: transactions s) (bills s) (budgets s)
            (investments s) false (initialNewTx today)
            (newBudget s) (newInvestment s).

(** [deleteTransaction]. *)
Definition deleteTransaction (id : string) (s : State) : State :=
  mkState
    (filter (fun t => negb (String.eqb (Transaction.id t) id))
            (transactions s))
    (bills s) (budgets s) (investments s) (isModalOpen s) (newTx s)
    (newBudget s) (newInvestment s).

(** [handleAddBudget]: no validation, the budget is appended. *)
Definition handleAddBudget (uuid : string) (s : State) : State :=
  let f := newBudget s in
  let budget :=
    Budget.mk uuid
              (JS.or_string (PartialBudget.category f) EmptyString)
              (JS.Number (PartialBudget.limit f)) in
  mkState (transactions s) (bills s) (budgets s ++ [budget])
          (investments s) false (newTx s) (newBudget s) (newInvestment s).

(** [handleAddInvestment]: no validation, the investment is appended. *)
Definition handleAddInvestment (uuid today : string) (s : State) : State :=
  let f := newInvestment s in
  let inv :=
    Investment.mk
      uuid
      (JS.or_string (PartialInvestment.assetName f) EmptyString)
      (JS.or_string (PartialInvestment.symbol f) EmptyString)
      (JS.Number (PartialInvestment.quantity f))
      (JS.Number (PartialInvestment.purchasePrice f))
      (JS.Number (PartialInvestment.currentPrice f))
      (JS.or_string (PartialInvestment.purchaseDate f) today)
      (PartialInvestment.category f) in
  mkState (transactions s) (bills s) (budgets s)
          (investments s ++ [inv]) false (newTx s) (newBudget s)
          (newInvestment s).

(** [toggleBillPaid]. *)
Definition toggleBillPaid (id : string) (s : State) : State :=
  mkState
    (transactions s)
    (map (fun b =>
            if String.eqb (Bill.id b) id
            then Bill.mk (Bill.id b) (Bill.name b) (Bill.amount b)
                         (Bill.dueDate b) (Bill.category b)
                         (negb (Bill.isPaid b))
            else b)
         (bills s))
    (budgets s) (investments s) (isModalOpen s) (newTx s)
    (newBudget s) (newInvestment s).

(** [setNewTx], [setNewBudget], [setNewInvestment]: what the form controls
    do between two submissions. *)
Definition setNewTx (f : PartialTransaction.t) (s : State) : State :=
  mkState (transactions s) (bills s) (budgets s) (investments s)
          (isModalOpen s) f (newBudget s) (newInvestment s).

Definition setNewBudget (f : PartialBudget.t) (s : State) : State :=
  mkState (transactions s) (bills s) (budgets s) (investments s)
          (isModalOpen s) (newTx s) f (newInvestment s).

Definition setNewInvestment (f : PartialInvestment.t) (s : State) : State :=
  mkState (transactions s) (bills s) (budgets s) (investments s)
          (isModalOpen s) (newTx s) (newBudget s) f.

(** The state of a first visit: nothing in [localStorage]. *)
Definition initialState (today : string) : State :=
  mkState [] [] [] [] false (initialNewTx today) initialNewBudget
          (initialNewInvestment today).

(** *** The other derivations *)

Section Charts.
(** The labels of the date library: [dayLabel d] is
    [format(parseISO(d), 'MMM dd')], [None] when [format] throws on an
    invalid date; [windowLabel i] is
    [format(subDays(new Date(), 6 - i), 'MMM dd')]. *)
Variable dayLabel : string -> option string.
Variable windowLabel : nat -> string.

(** [transactions.filter(t => format(parseISO(t.date), 'MMM dd') ===
    dateStr)]: the test is run on every transaction, in order, and the
    first one that throws ends the call. *)
Fixpoint dayTransactions (dateStr : string) (l : list Transaction.t)
    : option (list Transaction.t) :=
  match l with
  | [] => Some []
  | t :: rest =>
      match dayLabel (Transaction.date t) with
      | None => None
      | Some label =>
          match dayTransactions dateStr rest with
          | None => None
          | Some kept =>
              Some (if String.eqb label dateStr then t :: kept else kept)
          end
      end
  end.

(** One element of [last7Days]. *)
Definition chartDay (transactions : list Transaction.t) (i : nat)
    : option ChartPoint.t :=
  let dateStr := windowLabel i in
  match dayTransactions dateStr transactions with
  | None => None
  | Some day =>
      Some (ChartPoint.mk dateStr
              (reduce_amounts (filter is_income day))
              (reduce_amounts (filter is_expense day)))
  end.

(** [Array.from({ length: 7 }).map((_, i) => ...)], stopped by the first
    element that throws. *)
Fixpoint mapDays (f : nat -> option ChartPoint.t) (days : list nat)
    : option (list ChartPoint.t) :=
  match days with
  | [] => Some []
  | i :: rest =>
      match f i with
      | None => None
      | Some p =>
          match mapDays f rest with
          | None => None
          | Some ps => Some (p :: ps)
          end
      end
  end.

(** [chartData]. *)
Definition chartData (transactions : list Transaction.t)
    : option (list ChartPoint.t) :=
  mapDays (chartDay transactions) (seq 0 7).
End Charts.

Section Categories.
(** The names of the properties a plain object inherits from
    [Object.prototype] ([constructor], [toString], ...), the accessor
    [__proto__] apart. *)
Variable inheritedKey : string -> bool.

(** [(data[k] || 0) + amount].  An own number is used unless it is falsy;
    an absent property is read on the prototype, where it is [undefined]
    or an inherited function or object, and [+] then makes a text; a text
    stays a text. *)
Definition addToCategory (data : JSObject.t CategoryValue) (k : string)
    (amount : float) : CategoryValue :=
  match JSObject.get_own k data with
  | Some (Num x) =>
      if JS.truthy_number x then Num (x + amount)%float
      else Num (0 + amount)%float
  | Some Text => Text
  | None =>
      if String.eqb k "__proto__" || inheritedKey k then Text
      else Num (0 + amount)%float
  end.

(** [data[k] = v]: the setter of [__proto__] ignores a value that is not an
    object; any other key becomes an own property. *)
Definition assignCategory (data : JSObject.t CategoryValue) (k : string)
    (v : CategoryValue) : JSObject.t CategoryValue :=
  if String.eqb k "__proto__" then data else JSObject.set_own k v data.

(** The object [data] after the [forEach]. *)
Definition categoryObject (transactions : list Transaction.t)
    : JSObject.t CategoryValue :=
  fold_left
    (fun data t =>
       assignCategory data (Transaction.category t)
         (addToCategory data (Transaction.category t)
                        (Transaction.amount t)))
    (filter is_expense transactions) [].

(** [categoryData]. *)
Definition categoryData (transactions : list Transaction.t)
    : list CategoryTotal.t :=
  map (fun kv => CategoryTotal.mk (fst kv) (snd kv))
      (JSObject.entries (categoryObject transactions)).
End Categories.

(** The category of a row,
    [DEFAULT_CATEGORIES.find(c => c.name === transaction.category)
     || DEFAULT_CATEGORIES[8]]; [None] stands for [undefined]. *)
Definition rowCategory (transaction : Transaction.t) : option Category.t :=
  match JS.find (fun c => String.eqb (Category.name c)
                                     (Transaction.category transaction))
                DEFAULT_CATEGORIES with
  | Some c => Some c
  | None => nth_error DEFAULT_CATEGORIES 8
  end.

(** The colour of a slice of the pie,
    [DEFAULT_CATEGORIES.find(c => c.name === entry.name)?.color
     || '#CBD5E1']. *)
Definition sliceColor (entry : CategoryTotal.t) : string :=
  JS.or_string
    (option_map Category.color
       (JS.find (fun c => String.eqb (Category.name c)
                                     (CategoryTotal.name entry))
                DEFAULT_CATEGORIES))
    "#CBD5E1".

(** The options of the category select of the transaction form,
    [DEFAULT_CATEGORIES.filter(c => c.type === newTx.type)]. *)
Definition categoryOptions (ty : TransactionType) : list Category.t :=
  filter (fun c => TransactionType_eqb (Category.type c) ty)
         DEFAULT_CATEGORIES.

(** The two type buttons, [setNewTx(prev => ({ ...prev, type }))]. *)
Definition selectType (ty : TransactionType) (s : State) : State :=
  setNewTx
    (PartialTransaction.mk
       (PartialTransaction.id (newTx s))
       (PartialTransaction.date (newTx s))
       (PartialTransaction.amount (newTx s))
       (PartialTransaction.category (newTx s))
       (PartialTransaction.description (newTx s))
       ty)
    s.

(** [handleAddBill]: no validation, the bill is appended unpaid.  The form
    state [newBill] is passed in; the handler does not write it. *)
Definition handleAddBill (newBill : PartialBill.t) (uuid today : string)
    (s : State) : State :=
  let bill :=
    Bill.mk uuid
            (JS.or_string (PartialBill.name newBill) EmptyString)
            (JS.Number (PartialBill.amount newBill))
            (JS.or_string (PartialBill.dueDate newBill) today)
            (JS.or_string (PartialBill.category newBill) "Utilities")
            false in
  mkState (transactions s) (bills s ++ [bill]) (budgets s) (investments s)
          false (newTx s) (newBudget s) (newInvestment s).

End App.

(** ** Vocabulary of the specification *)

(** The sum of a list of amounts, taken from the left from a start value, in
    the arithmetic of the program's numbers. *)
Fixpoint sum_from (acc : float) (amounts : list float) : float :=
  match amounts with
  | [] => acc
  | x :: rest => sum_from (acc + x)%float rest
  end.

(** The amounts of the transactions of one type, in the order of the
    collection. *)
Fixpoint amounts_of_type (ty : TransactionType) (l : list Transaction.t)
    : list float :=
  match l with
  | [] => []
  | t :: rest =>
      match ty, Transaction.type t with
      | income, income | expense, expense =>
          Transaction.amount t :: amounts_of_type ty rest
      | _, _ => amounts_of_type ty rest
      end
  end.

(** The amounts of the expenses of one category. *)
Fixpoint expenses_of_category (c : string) (l : list Transaction.t)
    : list float :=
  match l with
  | [] => []
  | t :: rest =>
      match Transaction.type t with
      | expense =>
          if String.eqb (Transaction.category t) c
          then Transaction.amount t :: expenses_of_category c rest
          else expenses_of_category c rest
      | income => expenses_of_category c rest
      end
  end.

(** An add-transaction input the handler's guard refuses: the amount is
    absent, zero ([+0] or [-0]) or [NaN], or the description is absent or
    empty. *)
Definition invalid_input (f : PartialTransaction.t) : Prop :=
  match PartialTransaction.amount f with
  | None => True
  | Some x => (x =? 0)%float = true \/ is_nan x = true
  end
  \/ match PartialTransaction.description f with
     | None => True
     | Some d => d = EmptyString
     end.

(** An add-transaction input that passes validation: a number other than
    zero and [NaN], and a description that is not empty. *)
Definition valid_input (f : PartialTransaction.t) : Prop :=
  (exists x, PartialTransaction.amount f = Some x
             /\ (x =? 0)%float = false /\ is_nan x = false)
  /\ (exists d, PartialTransaction.description f = Some d
                /\ d <> EmptyString).

(** [o] when it is set, [dflt] when it is unset: absent or empty. *)
Definition with_default (o : option string) (dflt : string) : string :=
  match o with
  | None => dflt
  | Some EmptyString => dflt
  | Some s => s
  end.

(** The ids of a collection of transactions. *)
Definition ids (l : list Transaction.t) : list string :=
  map Transaction.id l.

(** The states the transaction handlers reach from a first visit: the form
    is edited, a transaction is submitted, a transaction is deleted. *)
Inductive reachable : App.State -> Prop :=
| reach_init (today : string) : reachable (App.initialState today)
| reach_edit (f : PartialTransaction.t) (s : App.State) :
    reachable s -> reachable (App.setNewTx f s)
| reach_add (uuid today : string) (s : App.State) :
    reachable s -> reachable (App.handleAddTransaction uuid today s)
| reach_delete (id : string) (s : App.State) :
    reachable s -> reachable (App.deleteTransaction id s).

(** A bill and its image by the toggle: the same bill, except that [isPaid]
    is negated when [flip] holds. *)
Definition same_bill_up_to_paid (flip : bool) (b b' : Bill.t) : Prop :=
  Bill.id b' = Bill.id b
  /\ Bill.name b' = Bill.name b
  /\ Bill.amount b' = Bill.amount b
  /\ Bill.dueDate b' = Bill.dueDate b
  /\ Bill.category b' = Bill.category b
  /\ Bill.isPaid b' = (if flip then negb (Bill.isPaid b) else Bill.isPaid b).

(** The reading of the add-transaction rule in which an unset category is
    replaced by [dflt]: a valid submission prepends the transaction made of
    the new id, the form's date or today, the form's amount, the form's
    category or [dflt], the form's description and type. *)
Definition add_prepends_with_default (dflt : string) : Prop :=
  forall (uuid today : string) (s : App.State) (x : float) (d : string),
    PartialTransaction.amount (App.newTx s) = Some x ->
    (x =? 0)%float = false ->
    is_nan x = false ->
    PartialTransaction.description (App.newTx s) = Some d ->
    d <> EmptyString ->
    App.transactions (App.handleAddTransaction uuid today s)
    = Transaction.mk
        uuid
        (with_default (PartialTransaction.date (App.newTx s)) today)
        x
        (with_default (PartialTransaction.category (App.newTx s)) dflt)
        d
        (PartialTransaction.type (App.newTx s))
      :: App.transactions s.

(** An amount that is not negative. *)
Definition non_negative (x : float) : Prop := (0 <=? x)%float = true.

(** An amount the guard of the handler lets through. *)
Definition non_zero_number (x : float) : Prop :=
  (x =? 0)%float = false /\ is_nan x = false.

Section Matching.
Variable toLowerCase : string -> string.

(** The lower-cased [q] occurs in the lower-cased [s]. *)
Definition occurs_lowered (q s : string) : Prop :=
  exists pre post : string,
    toLowerCase s = (pre ++ toLowerCase q ++ post)%string.

(** A transaction matches a query by its description or by its category. *)
Definition matches (q : string) (t : Transaction.t) : Prop :=
  occurs_lowered q (Transaction.description t)
  \/ occurs_lowered q (Transaction.category t).
End Matching.

Section DateOrder.
Variable getTime : string -> option Z.

(** The date of the transaction is one the host reads. *)
Definition dated (t : Transaction.t) : Prop :=
  getTime (Transaction.date t) <> None.

(** [a] is dated as [b] or later. *)
Definition not_older (a b : Transaction.t) : Prop :=
  match getTime (Transaction.date a), getTime (Transaction.date b) with
  | Some ta, Some tb => (tb <= ta)%Z
  | _, _ => False
  end.


End DateOrder.


(** The binary64 value is not [NaN] and not negative: a zero, [+Infinity] or
    a positive finite number. *)
Definition sf_non_negative (X : spec_float) : bool :=
  match X with
  | S754_zero _ => true
  | S754_infinity s => negb s
  | S754_finite s _ _ => negb s
  | S754_nan => false
  end.

(** The binary64 value is a positive finite number. *)
Definition sf_positive_finite (X : spec_float) : bool :=
  match X with
  | S754_finite s _ _ => negb s
  | _ => false
  end.

(** The states reached when every id drawn for a new transaction is one the
    collection does not hold. *)
Inductive reachable_fresh : App.State -> Prop :=
| fresh_init (today : string) : reachable_fresh (App.initialState today)
| fresh_edit (f : PartialTransaction.t) (s : App.State) :
    reachable_fresh s -> reachable_fresh (App.setNewTx f s)
| fresh_add (uuid today : string) (s : App.State) :
    reachable_fresh s ->
    ~ In uuid (ids (App.transactions s)) ->
    reachable_fresh (App.handleAddTransaction uuid today s)
| fresh_delete (id : string) (s : App.State) :
    reachable_fresh s -> reachable_fresh (App.deleteTransaction id s).

(** The ids of a collection of bills. *)
Definition bill_ids (l : list Bill.t) : list string := map Bill.id l.

(** The names of the seeded categories offered for a type. *)
Definition option_names (ty : TransactionType) : list string :=
  map Category.name (App.categoryOptions ty).

(** The amounts of the transactions of one type whose date has the label
    [label], in the order of the collection. *)
Fixpoint day_amounts (dayLabel : string -> option string)
    (ty : TransactionType) (label : string) (l : list Transaction.t)
    : list float :=
  match l with
  | [] => []
  | t :: rest =>
      match dayLabel (Transaction.date t), ty, Transaction.type t with
      | Some lb, income, income | Some lb, expense, expense =>
          if String.eqb lb label
          then Transaction.amount t :: day_amounts dayLabel ty label rest
          else day_amounts dayLabel ty label rest
      | _, _, _ => day_amounts dayLabel ty label rest
      end
  end.

(** A category that has an expense in the collection. *)
Definition has_expense (c : string) (l : list Transaction.t) : Prop :=
  exists t, In t l /\ Transaction.type t = expense
            /\ Transaction.category t = c.

(** The binary64 value is a zero or a finite number. *)
Definition sf_is_finite (X : spec_float) : bool :=
  match X with
  | S754_zero _ | S754_finite _ _ _ => true
  | S754_infinity _ | S754_nan => false
  end.

(** The value of a category after one more amount, from the value it had
    ([None] when it had none), for a category that is not the name of an
    inherited property. *)
Definition add_to_total (v : option CategoryValue) (a : float)
    : CategoryValue :=
  match v with
  | Some (Num x) =>
      if JS.truthy_number x then Num (x + a)%float else Num (0 + a)%float
  | Some Text => Text
  | None => Num (0 + a)%float
  end.

(** Two running totals that are the same number, or two zeros. *)
Definition same_or_zeros (x y : float) : Prop :=
  x = y \/ ((x =? 0)%float = true /\ (y =? 0)%float = true).

(** ** Sample inputs *)

Module Sample.

Definition today : string := "2024-01-15".

(** A budget whose limit is typed as [0] and submitted. *)
Definition zeroLimitForm : PartialBudget.t :=
  PartialBudget.mk None (Some "Food & Dining") (Some 0%float).

Definition zeroLimitState : App.State :=
  App.handleAddBudget "b-1"
    (App.setNewBudget zeroLimitForm (App.initialState today)).

(** The same budget after an expense of 40 in its category. *)
Definition lunchForm : PartialTransaction.t :=
  PartialTransaction.mk None (Some "2024-01-14") (Some 40%float)
                        (Some "Food & Dining") (Some "Lunch") expense.

Definition zeroLimitSpentState : App.State :=
  App.handleAddTransaction "t-1" today
    (App.setNewTx lunchForm zeroLimitState).

(** An asset received for free: purchase price [0], current price [15]. *)
Definition freeAssetForm : PartialInvestment.t :=
  PartialInvestment.mk None (Some "Gift shares") (Some "GFT")
                       (Some 2%float) (Some 0%float) (Some 15%float)
                       (Some "2024-01-10") Stock.

Definition freeAssetState : App.State :=
  App.handleAddInvestment "i-1" today
    (App.setNewInvestment freeAssetForm (App.initialState today)).

(** An asset whose two prices are [0]. *)
Definition worthlessAssetForm : PartialInvestment.t :=
  PartialInvestment.mk None (Some "Dead coin") (Some "DED")
                       (Some 1%float) (Some 0%float) (Some 0%float)
                       (Some "2024-01-10") Crypto.

Definition worthlessAssetState : App.State :=
  App.handleAddInvestment "i-2" today
    (App.setNewInvestment worthlessAssetForm (App.initialState today)).

(** Twenty-one purchases submitted one after the other, of amounts 1 to
    21: the one of amount 21 is the last added. *)
Definition purchaseForm (a : float) : PartialTransaction.t :=
  PartialTransaction.mk None (Some "2024-01-10") (Some a)
                        (Some "Shopping") (Some "Purchase") expense.

Definition submit (s : App.State) (p : string * float) : App.State :=
  App.handleAddTransaction (fst p) today
    (App.setNewTx (purchaseForm (snd p)) s).

Definition purchases : list (string * float) :=
  [ ("u-01", 1%float); ("u-02", 2%float); ("u-03", 3%float);
    ("u-04", 4%float); ("u-05", 5%float); ("u-06", 6%float);
    ("u-07", 7%float); ("u-08", 8%float); ("u-09", 9%float);
    ("u-10", 10%float); ("u-11", 11%float); ("u-12", 12%float);
    ("u-13", 13%float); ("u-14", 14%float); ("u-15", 15%float);
    ("u-16", 16%float); ("u-17", 17%float); ("u-18", 18%float);
    ("u-19", 19%float); ("u-20", 20%float); ("u-21", 21%float) ].

Definition twentyOneAdded : App.State :=
  fold_left submit purchases (App.initialState today).

(** A form without a category. *)
Definition noCategoryForm : PartialTransaction.t :=
  PartialTransaction.mk None (Some "2024-01-12") (Some 12%float)
                        None (Some "Taxi") expense.

(** A refund entered as a negative expense. *)
Definition refundForm : PartialTransaction.t :=
  PartialTransaction.mk None (Some "2024-01-13") (Some (-5)%float)
                        (Some "Shopping") (Some "Refund") expense.

Definition refundState : App.State :=
  App.handleAddTransaction "t-9" today
    (App.setNewTx refundForm (App.initialState today)).

(** A form whose amount was left at zero. *)
Definition zeroAmountForm : PartialTransaction.t :=
  PartialTransaction.mk None (Some "2024-01-13") (Some 0%float)
                        (Some "Shopping") (Some "Free sample") expense.

(** Two bills, the first unpaid. *)
Definition twoBills : App.State :=
  App.mkState [] [ Bill.mk "b-1" "Electricity" 60%float "2024-02-01"
                           "Utilities" false;
                   Bill.mk "b-2" "Internet" 30%float "2024-02-05"
                           "Utilities" true ]
              [] [] false (App.initialNewTx today) App.initialNewBudget
              (App.initialNewInvestment today).

(** A host that reads the date-only form [YYYY-MM-DD] (as UTC midnight,
    in milliseconds since 1970-01-01) and no other. *)
Definition digit (c : ascii) : option Z :=
  let n := Z.of_nat (nat_of_ascii c) in
  if ((48 <=? n) && (n <=? 57))%Z then Some (n - 48)%Z else None.

Definition days_from_civil (y m d : Z) : Z :=
  let y' := if (m <=? 2)%Z then (y - 1)%Z else y in
  let era := (y' / 400)%Z in
  let yoe := (y' - era * 400)%Z in
  let mp := if (m <=? 2)%Z then (m + 9)%Z else (m - 3)%Z in
  let doy := ((153 * mp + 2) / 5 + d - 1)%Z in
  let doe := (yoe * 365 + yoe / 4 - yoe / 100 + doy)%Z in
  (era * 146097 + doe - 719468)%Z.

Definition isoTime (s : string) : option Z :=
  match map digit (list_ascii_of_string s) with
  | [Some y1; Some y2; Some y3; Some y4; None;
     Some m1; Some m2; None; Some d1; Some d2] =>
      let y := (((y1 * 10 + y2) * 10 + y3) * 10 + y4)%Z in
      let m := (m1 * 10 + m2)%Z in
      let d := (d1 * 10 + d2)%Z in
      if ((1 <=? m) && (m <=? 12) && (1 <=? d) && (d <=? 31))%Z
      then Some (days_from_civil y m d * 86400000)%Z
      else None
  | _ => None
  end.

(** Three transactions, newest added first; two of the same day. *)
Definition groceries : Transaction.t :=
  Transaction.mk "t-3" "2024-01-12" 25%float "Food & Dining"
                 "Grocery shopping" expense.
Definition salary : Transaction.t :=
  Transaction.mk "t-2" "2024-01-14" 900%float "Salary" "January pay" income.
Definition bakery : Transaction.t :=
  Transaction.mk "t-1" "2024-01-12" 4%float "Food & Dining" "Bakery" expense.

Definition threeTransactions : list Transaction.t :=
  [groceries; salary; bakery].

(** A host lower-casing for the sample texts: the ASCII letters, and of
    the Greek letters (two bytes each in UTF-8) capital alpha [CE 91] to
    alpha [CE B1] and capital sigma [CE A3] to sigma [CF 83], or to final
    sigma [CF 82] where Unicode's final-sigma rule applies: after a cased
    letter and not before one.  [String.prototype.toLowerCase] gives the
    same on the texts of the samples. *)
Definition is_ascii_letter (c : ascii) : bool :=
  let n := nat_of_ascii c in
  ((65 <=? n)%nat && (n <=? 90)%nat) || ((97 <=? n)%nat && (n <=? 122)%nat).

Definition lower_ascii (c : ascii) : ascii :=
  let n := nat_of_ascii c in
  if (65 <=? n)%nat && (n <=? 90)%nat then ascii_of_nat (n + 32) else c.

Definition byte_is (n : nat) (c : ascii) : bool :=
  Nat.eqb (nat_of_ascii c) n.

Definition starts_cased (s : string) : bool :=
  match s with
  | EmptyString => false
  | String c rest =>
      is_ascii_letter c
      || match rest with
         | EmptyString => false
         | String d _ =>
             (byte_is 206 c && (byte_is 145 d || byte_is 163 d || byte_is 177 d))
             || (byte_is 207 c && (byte_is 130 d || byte_is 131 d))
         end
  end.

Fixpoint lowerAfter (afterCased : bool) (s : string) : string :=
  match s with
  | EmptyString => EmptyString
  | String c rest =>
      match rest with
      | String d rest' =>
          if byte_is 206 c && byte_is 145 d then
            String c (String (ascii_of_nat 177) (lowerAfter true rest'))
          else if byte_is 206 c && byte_is 163 d then
            String (ascii_of_nat 207)
                   (String (if afterCased && negb (starts_cased rest')
                            then ascii_of_nat 130 else ascii_of_nat 131)
                           (lowerAfter true rest'))
          else if (byte_is 206 c || byte_is 207 c) then
            String c (String d (lowerAfter (starts_cased s) rest'))
          else String (lower_ascii c) (lowerAfter (is_ascii_letter c) rest)
      | EmptyString => String (lower_ascii c) EmptyString
      end
  end.

Definition lower (s : string) : string := lowerAfter false s.

Definition of_bytes (l : list nat) : string :=
  string_of_list_ascii (map ascii_of_nat l).

(** The Greek texts capital alpha, capital sigma, and the same followed by
    a capital alpha. *)
Definition alphaSigma : string := of_bytes [206; 145; 206; 163].
Definition alphaSigmaAlpha : string :=
  of_bytes [206; 145; 206; 163; 206; 145].

Definition greekTransaction : Transaction.t :=
  Transaction.mk "t-4" "2024-01-12" 9%float "Other" alphaSigmaAlpha expense.

(** A host sort.  On a consistent comparator it is the stable sort.  On
    the others it proceeds as V8 does on an array of fewer than 64
    elements: the run that the array starts with is taken (non-descending,
    or strictly descending and then reversed) and the elements after it
    are put in one after the other, each at the place a binary search by
    the comparator gives. *)
Section ShortSort.
Variable A : Type.
Variable cmp : A -> A -> comparison.

Fixpoint search (fuel : nat) (pivot : A) (sorted : list A)
    (left right : nat) : nat :=
  match fuel with
  | O => left
  | S fuel' =>
      if (left <? right)%nat then
        let mid := (left + (right - left) / 2)%nat in
        match nth_error sorted mid with
        | Some y =>
            if JS.is_Lt (cmp pivot y)
            then search fuel' pivot sorted left mid
            else search fuel' pivot sorted (mid + 1)%nat right
        | None => left
        end
      else left
  end.

Definition insertPivot (sorted : list A) (pivot : A) : list A :=
  let k := search (S (List.length sorted)) pivot sorted 0
                  (List.length sorted) in
  firstn k sorted ++ pivot :: skipn k sorted.

Fixpoint runAfter (descending : bool) (prev : A) (l : list A)
    : list A * list A :=
  match l with
  | [] => ([], [])
  | cur :: l' =>
      if Bool.eqb (JS.is_Lt (cmp cur prev)) descending
      then let (run, rest) := runAfter descending cur l' in (cur :: run, rest)
      else ([], l)
  end.

Definition shortSort (l : list A) : list A :=
  match l with
  | a0 :: a1 :: l' =>
      let descending := JS.is_Lt (cmp a1 a0) in
      let (run, rest) := runAfter descending a1 l' in
      fold_left insertPivot rest
                (if descending then rev (a0 :: a1 :: run)
                 else a0 :: a1 :: run)
  | _ => l
  end.

Definition engineSort (l : list A) : list A :=
  if JS.consistent_on cmp l then JS.stable_sort cmp l else shortSort l.
End ShortSort.



(** The scenarios of the specification's examples. *)
Definition scenarioTransactions : list Transaction.t :=
  [ Transaction.mk "s-1" "2024-01-01" 100%float "Salary" "Pay" income;
    Transaction.mk "s-2" "2024-01-02" 40%float "Food" "Lunch" expense ].

Definition scenarioBudget : Budget.t := Budget.mk "s-3" "Food" 100%float.

Definition scenarioInvestment : Investment.t :=
  Investment.mk "s-4" "Acme" "ACM" 2%float 10%float 15%float "2024-01-03"
                Stock.

(** A bill typed in the add-bill form. *)
Definition rentForm : PartialBill.t :=
  PartialBill.mk None (Some "Rent") (Some 700%float) (Some "2024-02-01")
                 (Some "Utilities") (Some false).

(** A salary typed in the form after the income button was pressed. *)
Definition payForm : PartialTransaction.t :=
  PartialTransaction.mk None (Some "2024-01-15") (Some 900%float)
                        (Some "Food & Dining") (Some "January pay") income.

(** The collection after a lunch and a refund. *)
Definition lunchAndRefund : App.State :=
  App.handleAddTransaction "t-11" today
    (App.setNewTx lunchForm refundState).

(** A date library that labels the dates of January 2024 and throws on any
    other text, and a week that ends on the 15th. *)
Definition januaryLabel (d : string) : option string :=
  match isoTime d with
  | Some ms =>
      let day := (ms / 86400000 - 19723)%Z in
      if ((0 <=? day) && (day <? 31))%Z
      then Some (String.append "Jan "
                   (String (ascii_of_nat (48 + Z.to_nat ((day + 1) / 10)))
                      (String (ascii_of_nat (48 + Z.to_nat ((day + 1) mod 10)))
                              EmptyString)))
      else None
  | None => None
  end.

Definition januaryWindow (i : nat) : string :=
  String.append "Jan "
    (String (ascii_of_nat (48 + (9 + i) / 10))
       (String (ascii_of_nat (48 + (9 + i) mod 10)) EmptyString)).

End Sample.

(** ** The operations on numbers, on samples *)

Example Math_min_samples :
  JS.Math_min [nan; 100%float] = nan
  /\ JS.Math_min [infinity; 100%float] = 100%float
  /\ JS.Math_min [40%float; 100%float] = 40%float
  /\ JS.Math_min [0%float; (-0)%float] = (-0)%float
  /\ JS.Math_min [] = infinity.
Proof. repeat split; reflexivity. Qed.

Example truthy_number_samples :
  JS.truthy_number 0%float = false
  /\ JS.truthy_number (-0)%float = false
  /\ JS.truthy_number nan = false
  /\ JS.truthy_number (-5)%float = true.
Proof. repeat split; reflexivity. Qed.

Example scenario_stats :
  App.stats Sample.scenarioTransactions
  = Stats.mk 60%float 100%float 40%float.
Proof. reflexivity. Qed.

Example scenario_budget :
  App.budgetProgress [Sample.scenarioBudget] Sample.scenarioTransactions
  = [ BudgetProgress.mk "s-3" "Food" 100%float 40%float 40%float ].
Proof. reflexivity. Qed.

Example scenario_performance :
  App.performance Sample.scenarioInvestment = 50%float.
Proof. reflexivity. Qed.

(** ** Aggregate totals *)

Lemma fold_left_sum_from (l : list Transaction.t) (acc : float) :
  fold_left (fun a t => (a + Transaction.amount t)%float) l acc
  = sum_from acc (map Transaction.amount l).
Proof.
  revert acc; induction l as [|t l IH]; intros acc; simpl; [reflexivity|].
  apply IH.
Qed.

Lemma amounts_of_income (l : list Transaction.t) :
  map Transaction.amount (filter App.is_income l) = amounts_of_type income l.
Proof.
  induction l as [|t l IH]; simpl; [reflexivity|].
  unfold App.is_income at 1.
  destruct (Transaction.type t); simpl; rewrite IH; reflexivity.
Qed.

Lemma amounts_of_expense (l : list Transaction.t) :
  map Transaction.amount (filter App.is_expense l) = amounts_of_type expense l.
Proof.
  induction l as [|t l IH]; simpl; [reflexivity|].
  unfold App.is_expense at 1.
  destruct (Transaction.type t); simpl; rewrite IH; reflexivity.
Qed.

(** C1.  For every list of transactions, [stats] gives
    [balance = income - expenses] (the subtraction of the program's numbers,
    applied once to the two totals), where [income] is the sum of the
    amounts of the transactions of type income and [expenses] that of the
    transactions of type expense; on the empty list the three values
    are 0. *)
Theorem stats_balance_is_income_minus_expenses :
  forall transactions : list Transaction.t,
    let s := App.stats transactions in
    Stats.balance s = (Stats.income s - Stats.expenses s)%float
    /\ Stats.income s = sum_from 0%float (amounts_of_type income transactions)
    /\ Stats.expenses s
       = sum_from 0%float (amounts_of_type expense transactions)
    /\ App.stats [] = Stats.mk 0%float 0%float 0%float.
Proof.
  intros transactions s; subst s; unfold App.stats, App.reduce_amounts; simpl.
  rewrite !fold_left_sum_from, amounts_of_income, amounts_of_expense.
  repeat split; reflexivity.
Qed.

(** ** Budget progress *)

Lemma spent_is_sum_of_category (c : string) (l : list Transaction.t) :
  App.reduce_amounts
    (filter (fun t => App.is_expense t
                      && String.eqb (Transaction.category t) c) l)
  = sum_from 0%float (expenses_of_category c l).
Proof.
  unfold App.reduce_amounts; rewrite fold_left_sum_from; f_equal.
  induction l as [|t l IH]; simpl; [reflexivity|].
  unfold App.is_expense at 1.
  destruct (Transaction.type t); simpl; [exact IH|].
  destruct (String.eqb (Transaction.category t) c); simpl;
    rewrite IH; reflexivity.
Qed.

(** The formula of the derived percentage, for every budget of the list. *)
Lemma budgetProgress_formula (budgets : list Budget.t)
    (transactions : list Transaction.t) :
  App.budgetProgress budgets transactions
  = map (fun b =>
           let spent :=
             sum_from 0%float
                      (expenses_of_category (Budget.category b) transactions) in
           BudgetProgress.mk (Budget.id b) (Budget.category b) (Budget.limit b)
             spent
             (JS.Math_min [((spent / Budget.limit b) * 100)%float; 100%float]))
        budgets.
Proof.
  unfold App.budgetProgress; apply map_ext; intros b; simpl.
  rewrite spent_is_sum_of_category; reflexivity.
Qed.

(** *** Signs and comparisons of binary64 values *)

Lemma shr_1_nonneg (mrs : shr_record) :
  (0 <= shr_m mrs)%Z -> (0 <= shr_m (shr_1 mrs))%Z.
Proof.
  destruct mrs as [m r s]; simpl.
  destruct m as [|[p|p|]|[p|p|]]; simpl; lia.
Qed.

Lemma iter_shr_1_nonneg (p : positive) (mrs : shr_record) :
  (0 <= shr_m mrs)%Z -> (0 <= shr_m (iter_pos shr_1 p mrs))%Z.
Proof.
  revert mrs; induction p as [p IH|p IH|]; intros mrs H; simpl.
  - apply IH, IH, shr_1_nonneg, H.
  - apply IH, IH, H.
  - apply shr_1_nonneg, H.
Qed.

Lemma shr_fexp_nonneg (m e : Z) (l : location) :
  (0 <= m)%Z -> (0 <= shr_m (fst (shr_fexp prec emax m e l)))%Z.
Proof.
  intros H. unfold shr_fexp, shr.
  assert (H0 : (0 <= shr_m (shr_record_of_loc m l))%Z)
    by (destruct l as [|[]]; exact H).
  destruct (fexp prec emax (Zdigits2 m + e) - e)%Z; simpl; auto.
  apply iter_shr_1_nonneg, H0.
Qed.

Lemma round_nearest_even_nonneg (m : Z) (l : location) :
  (0 <= m)%Z -> (0 <= round_nearest_even m l)%Z.
Proof.
  intros H; destruct l as [|[]]; simpl; try lia.
  destruct (Z.even m); lia.
Qed.

Lemma binary_round_aux_sign (m e : Z) (l : location) :
  (0 <= m)%Z ->
  sf_non_negative (binary_round_aux prec emax false m e l) = true.
Proof.
  intros H. unfold binary_round_aux.
  pose proof (@shr_fexp_nonneg m e l H) as H1.
  destruct (shr_fexp prec emax m e l) as [mrs' e'] eqn:E1; simpl in H1.
  pose proof (@shr_fexp_nonneg _ e' loc_Exact
                (@round_nearest_even_nonneg _ (loc_of_shr_record mrs') H1))
    as H2.
  destruct (shr_fexp prec emax _ e' loc_Exact) as [mrs'' e''] eqn:E2.
  simpl in H2.
  destruct (shr_m mrs'') as [|p|p]; [reflexivity| |lia].
  destruct (e'' <=? emax - prec)%Z; reflexivity.
Qed.

Lemma SFdiv_sign (X Y : spec_float) :
  sf_non_negative X = true -> sf_positive_finite Y = true ->
  sf_non_negative (SFdiv prec emax X Y) = true.
Proof.
  destruct X as [sx|sx| |sx mx ex], Y as [sy|sy| |sy my ey]; simpl;
    try discriminate; intros HX HY;
    apply negb_true_iff in HY; subst sy;
    try (apply negb_true_iff in HX; subst sx); try reflexivity.
  simpl.
  destruct (SFdiv_core_binary prec emax (Z.pos mx) ex (Z.pos my) ey)
    as [[mz ez] lz] eqn:E.
  apply binary_round_aux_sign.
  unfold SFdiv_core_binary in E.
  match type of E with
  | (let '(q, r) := Z.div_eucl ?a ?b in _) = _ =>
      assert (Ha : (0 <= a)%Z);
      [| pose proof (Z.div_pos a b Ha ltac:(lia)) as Hq;
         unfold Z.div in Hq; destruct (Z.div_eucl a b) as [q r] ]
  end.
  - destruct (_ - _ - _)%Z; try lia. apply Z.shiftl_nonneg; lia.
  - injection E as <- _ _. exact Hq.
Qed.

Lemma SFmul_sign (X Y : spec_float) :
  sf_non_negative X = true -> sf_positive_finite Y = true ->
  sf_non_negative (SFmul prec emax X Y) = true.
Proof.
  destruct X as [sx|sx| |sx mx ex], Y as [sy|sy| |sy my ey]; simpl;
    try discriminate; intros HX HY;
    apply negb_true_iff in HY; subst sy;
    try (apply negb_true_iff in HX; subst sx); try reflexivity.
  apply binary_round_aux_sign; lia.
Qed.

Lemma SFcompare_refl (X : spec_float) :
  X <> S754_nan -> SFcompare X X = Some Eq.
Proof.
  destruct X as [s|s| |s m e]; simpl; intros H; try congruence.
  - destruct s; reflexivity.
  - rewrite Z.compare_refl, Pos.compare_cont_refl. destruct s; reflexivity.
Qed.

Lemma is_nan_false (x : float) :
  sf_non_negative (Prim2SF x) = true -> is_nan x = false.
Proof.
  intros H. unfold is_nan. rewrite eqb_spec. unfold SFeqb.
  rewrite SFcompare_refl; [reflexivity|].
  intros E; rewrite E in H; discriminate H.
Qed.

Lemma leb_zero (x : float) :
  (0 <=? x)%float = true <-> sf_non_negative (Prim2SF x) = true.
Proof.
  rewrite leb_spec. change (Prim2SF 0) with (S754_zero false).
  unfold SFleb.
  destruct (Prim2SF x) as [s|s| |s m e]; simpl; try destruct s; simpl;
    split; congruence.
Qed.

Lemma positive_finite (x : float) :
  (0 <? x)%float = true -> (x <? infinity)%float = true ->
  sf_positive_finite (Prim2SF x) = true.
Proof.
  rewrite !ltb_spec.
  change (Prim2SF 0) with (S754_zero false).
  change (Prim2SF infinity) with (S754_infinity false).
  unfold SFltb.
  destruct (Prim2SF x) as [s|s| |s m e]; simpl; try destruct s; simpl;
    congruence.
Qed.

Lemma not_above_is_below (C V : spec_float) :
  sf_positive_finite C = true -> sf_non_negative V = true ->
  SFltb C V = false -> SFleb V C = true.
Proof.
  destruct C as [sc|sc| |sc mc ec]; simpl; try discriminate.
  intros HC; apply negb_true_iff in HC; subst sc.
  unfold SFltb, SFleb.
  destruct V as [s|s| |s m e]; simpl; try discriminate.
  - reflexivity.
  - intros HV; apply negb_true_iff in HV; subst s. discriminate.
  - intros HV; apply negb_true_iff in HV; subst s.
    rewrite (Z.compare_antisym ec e).
    destruct (ec ?= e)%Z; simpl; try congruence.
    pose proof (Pos.compare_cont_antisym mc m Eq) as A; simpl in A.
    rewrite <- A.
    destruct (Pos.compare_cont Eq mc m); simpl; congruence.
Qed.

(** The value [Math.min((spent / limit) * 100, 100)] lies between 0 and 100
    when [spent] is not negative and [limit] is a positive finite number. *)
Lemma percentage_in_range (spent limit : float) :
  (0 <=? spent)%float = true ->
  (0 <? limit)%float = true ->
  (limit <? infinity)%float = true ->
  let p := JS.Math_min [((spent / limit) * 100)%float; 100%float] in
  (0 <=? p)%float = true /\ (p <=? 100)%float = true.
Proof.
  intros Hs Hl Hf.
  set (v := ((spent / limit) * 100)%float).
  assert (C100 : sf_positive_finite (Prim2SF 100) = true) by reflexivity.
  assert (NN : sf_non_negative (Prim2SF v) = true).
  { unfold v. rewrite mul_spec, div_spec.
    apply SFmul_sign; [|exact C100].
    apply SFdiv_sign; [apply leb_zero, Hs | apply positive_finite; assumption]. }
  unfold JS.Math_min. simpl existsb.
  rewrite (is_nan_false v NN).
  change (is_nan 100 || false) with false. simpl.
  change (JS.is_pos_zero infinity) with false. rewrite andb_false_r.
  destruct (v <? infinity)%float eqn:E1.
  - change (JS.is_neg_zero 100) with false. simpl.
    destruct (100 <? v)%float eqn:E2.
    + split; reflexivity.
    + split; [apply leb_zero, NN|].
      rewrite leb_spec. rewrite ltb_spec in E2.
      apply not_above_is_below; assumption.
  - split; reflexivity.
Qed.

(** X24.  For a budget whose limit is a positive finite number, a spent amount
    that is not negative gives a percentage between 0 and 100. *)
Lemma budgetProgress_in_range (budgets : list Budget.t)
    (transactions : list Transaction.t) (p : BudgetProgress.t) :
  In p (App.budgetProgress budgets transactions) ->
  (0 <=? BudgetProgress.spent p)%float = true ->
  (0 <? BudgetProgress.limit p)%float = true ->
  (BudgetProgress.limit p <? infinity)%float = true ->
  (0 <=? BudgetProgress.percentage p)%float = true
  /\ (BudgetProgress.percentage p <=? 100)%float = true.
Proof.
  unfold App.budgetProgress. intros Hin.
  apply in_map_iff in Hin as (b & <- & _); simpl.
  apply percentage_in_range.
Qed.

(** C2, at the failing input.  A budget of limit 0 with nothing spent has
    the percentage [NaN], and with 40 spent the percentage 100: in neither
    case 0. *)
Theorem budgetProgress_zero_limit :
  Budget.limit (hd (Budget.mk EmptyString EmptyString 1%float)
                   (App.budgets Sample.zeroLimitState)) = 0%float
  /\ map (fun p => (BudgetProgress.spent p, BudgetProgress.percentage p))
         (App.budgetProgress (App.budgets Sample.zeroLimitState)
                             (App.transactions Sample.zeroLimitState))
     = [(0%float, nan)]
  /\ map (fun p => (BudgetProgress.spent p, BudgetProgress.percentage p))
         (App.budgetProgress (App.budgets Sample.zeroLimitSpentState)
                             (App.transactions Sample.zeroLimitSpentState))
     = [(40%float, 100%float)]
  /\ JS.isFinite nan = false.
Proof.
  repeat split; reflexivity.
Qed.

(** ** Per-asset performance *)

(** The formula of the derived performance. *)
Lemma performance_formula (inv : Investment.t) :
  App.performance inv
  = (((Investment.currentPrice inv - Investment.purchasePrice inv)
      / Investment.purchasePrice inv) * 100)%float.
Proof. reflexivity. Qed.

(** C4, at the failing input.  With a purchase price of 0 the performance is
    [Infinity] (or [NaN] when the current price is 0 too), and the table
    shows it. *)
Theorem performance_zero_purchasePrice :
  map App.performance (App.investments Sample.freeAssetState) = [infinity]
  /\ map App.performanceCell (App.investments Sample.freeAssetState)
     = [App.ShownInfinity]
  /\ map App.performance (App.investments Sample.worthlessAssetState) = [nan]
  /\ map App.performanceCell (App.investments Sample.worthlessAssetState)
     = [App.ShownNaN]
  /\ JS.isFinite infinity = false
  /\ JS.isFinite nan = false.
Proof.
  repeat split; reflexivity.
Qed.

(** ** The summary sent to the insight service *)

Example insights_of_empty_collection
    (generateContent : list Gemini.SummaryItem -> Gemini.Response) :
  Gemini.getFinancialInsights generateContent []
  = "Start adding transactions to get AI-powered financial insights!".
Proof. reflexivity. Qed.

(** [slice(-20)] keeps the last twenty elements of the array. *)
Lemma slice_minus_20 (A : Type) (l : list A) :
  JS.slice (-20) l = skipn (List.length l - 20) l.
Proof.
  unfold JS.slice; simpl; f_equal; lia.
Qed.

(** Every entry of the summary is a transaction of the collection reduced to
    its four fields, and the entries are those of the end of the
    collection. *)
Lemma summary_is_end_of_collection (transactions : list Transaction.t) :
  Gemini.summary transactions
  = map Gemini.summarize
        (skipn (List.length transactions - 20) transactions).
Proof.
  unfold Gemini.summary; rewrite slice_minus_20; reflexivity.
Qed.

(** C3, at the failing input.  After twenty-one additions the collection
    holds the amounts 21 down to 1, newest first; the summary holds 20 down
    to 1, the twenty oldest, and not 21 down to 2, the twenty most
    recent. *)
Theorem summary_of_twenty_one_drops_newest :
  map Transaction.amount (App.transactions Sample.twentyOneAdded)
  = [ 21%float; 20%float; 19%float; 18%float; 17%float; 16%float;
      15%float; 14%float; 13%float; 12%float; 11%float; 10%float;
      9%float; 8%float; 7%float; 6%float; 5%float; 4%float; 3%float;
      2%float; 1%float ]
  /\ map Gemini.amount
         (Gemini.summary (App.transactions Sample.twentyOneAdded))
     = [ 20%float; 19%float; 18%float; 17%float; 16%float; 15%float;
         14%float; 13%float; 12%float; 11%float; 10%float; 9%float;
         8%float; 7%float; 6%float; 5%float; 4%float; 3%float; 2%float;
         1%float ]
  /\ map Gemini.amount
         (map Gemini.summarize
              (firstn 20 (App.transactions Sample.twentyOneAdded)))
     = [ 21%float; 20%float; 19%float; 18%float; 17%float; 16%float;
         15%float; 14%float; 13%float; 12%float; 11%float; 10%float;
         9%float; 8%float; 7%float; 6%float; 5%float; 4%float; 3%float;
         2%float ].
Proof.
  repeat split; reflexivity.
Qed.

(** ** The transaction handlers *)

Lemma truthy_number_spec (x : float) :
  JS.truthy_number x = true <-> (x =? 0)%float = false /\ is_nan x = false.
Proof.
  unfold JS.truthy_number, is_zero.
  change zero with 0%float.
  destruct (x =? 0)%float, (is_nan x); simpl; intuition congruence.
Qed.

Lemma truthy_string_spec (d : string) :
  JS.truthy_string d = true <-> d <> EmptyString.
Proof.
  destruct d; simpl; split; intros H; congruence.
Qed.

Lemma or_string_with_default (o : option string) (dflt : string) :
  JS.or_string o dflt = with_default o dflt.
Proof.
  destruct o as [[|c d]|]; reflexivity.
Qed.

(** The guard of the handler is closed exactly on the invalid inputs. *)
Lemma guard_closed_iff_invalid (f : PartialTransaction.t) :
  negb (JS.truthy_opt JS.truthy_number (PartialTransaction.amount f))
  || negb (JS.truthy_opt JS.truthy_string (PartialTransaction.description f))
  = true
  <-> invalid_input f.
Proof.
  unfold invalid_input, JS.truthy_number, is_zero.
  change zero with 0%float.
  destruct (PartialTransaction.amount f) as [x|],
           (PartialTransaction.description f) as [[|c d]|]; simpl;
    try destruct (x =? 0)%float; try destruct (is_nan x); simpl;
    intuition congruence.
Qed.

Lemma valid_not_invalid (f : PartialTransaction.t) :
  valid_input f -> ~ invalid_input f.
Proof.
  intros [(x & Hx & Hz & Hn) (d & Hd & Hne)] [H|H].
  - rewrite Hx in H. destruct H; congruence.
  - rewrite Hd in H. congruence.
Qed.

(** What a submission that passes the guard does. *)
Lemma handleAddTransaction_valid (uuid today : string) (s : App.State) :
  valid_input (App.newTx s) ->
  App.handleAddTransaction uuid today s
  = App.mkState
      (Transaction.mk
         uuid
         (JS.or_string (PartialTransaction.date (App.newTx s)) today)
         (JS.Number (PartialTransaction.amount (App.newTx s)))
         (JS.or_string (PartialTransaction.category (App.newTx s)) "Other")
         (JS.or_string (PartialTransaction.description (App.newTx s))
                       EmptyString)
         (PartialTransaction.type (App.newTx s))
       :: App.transactions s)
      (App.bills s) (App.budgets s) (App.investments s) false
      (App.initialNewTx today) (App.newBudget s) (App.newInvestment s).
Proof.
  intros Hv. unfold App.handleAddTransaction.
  destruct (negb (JS.truthy_opt JS.truthy_number
                                (PartialTransaction.amount (App.newTx s)))
            || negb (JS.truthy_opt JS.truthy_string
                       (PartialTransaction.description (App.newTx s))))
    eqn:G; [|reflexivity].
  apply guard_closed_iff_invalid in G.
  elim (@valid_not_invalid _ Hv G).
Qed.

Lemma delete_absent_id (id : string) (l : list Transaction.t) :
  ~ In id (ids l) ->
  filter (fun t => negb (String.eqb (Transaction.id t) id)) l = l.
Proof.
  induction l as [|t l IH]; simpl; intros Hn; [reflexivity|].
  destruct (String.eqb_spec (Transaction.id t) id) as [E|E]; simpl.
  - elim Hn; left; exact E.
  - rewrite IH; [reflexivity|]. intros Hin; apply Hn; right; exact Hin.
Qed.

(** C6.  When the id given to the new transaction is not an id of the
    collection, adding a transaction and then deleting by that id gives
    back the collection, contents and order. *)
Theorem add_then_delete_restores_collection :
  forall (uuid today : string) (s : App.State),
    ~ In uuid (ids (App.transactions s)) ->
    App.transactions
      (App.deleteTransaction uuid (App.handleAddTransaction uuid today s))
    = App.transactions s.
Proof.
  intros uuid today s Hfresh.
  unfold App.handleAddTransaction.
  destruct (negb _ || negb _); simpl.
  - apply delete_absent_id; exact Hfresh.
  - rewrite String.eqb_refl; simpl.
    apply delete_absent_id; exact Hfresh.
Qed.

(** C7.  On an input whose amount is zero, [NaN] or absent, or whose
    description is empty or absent, the handler returns the state it was
    given: the collection, the form and the rest are unchanged, and the
    handler has no other outcome by which an error could be reported. *)
Theorem handleAddTransaction_rejects_invalid :
  forall (uuid today : string) (s : App.State),
    invalid_input (App.newTx s) ->
    App.handleAddTransaction uuid today s = s.
Proof.
  intros uuid today s Hinv.
  apply guard_closed_iff_invalid in Hinv.
  unfold App.handleAddTransaction. rewrite Hinv. reflexivity.
Qed.

(** On a sample: a lunch is added under the id 't-10' to a collection that
    holds 't-9', then deleted. *)
Lemma add_then_delete_restores_collection_witness :
  ~ In "t-10" (ids (App.transactions
                      (App.setNewTx Sample.lunchForm Sample.refundState)))
  /\ App.transactions
       (App.deleteTransaction "t-10"
          (App.handleAddTransaction "t-10" Sample.today
             (App.setNewTx Sample.lunchForm Sample.refundState)))
     = App.transactions (App.setNewTx Sample.lunchForm Sample.refundState).
Proof.
  split.
  - vm_compute. intros [H|[]]; discriminate H.
  - apply (add_then_delete_restores_collection "t-10" Sample.today
             (App.setNewTx Sample.lunchForm Sample.refundState)).
    vm_compute. intros [H|[]]; discriminate H.
Defined.

(** On a sample: a form whose amount is 0 is submitted. *)
Lemma handleAddTransaction_rejects_invalid_witness :
  invalid_input
    (App.newTx (App.setNewTx Sample.zeroAmountForm Sample.refundState))
  /\ App.handleAddTransaction "t-10" Sample.today
       (App.setNewTx Sample.zeroAmountForm Sample.refundState)
     = App.setNewTx Sample.zeroAmountForm Sample.refundState.
Proof.
  split.
  - left; left; reflexivity.
  - apply (handleAddTransaction_rejects_invalid "t-10" Sample.today
             (App.setNewTx Sample.zeroAmountForm Sample.refundState)).
    left; left; reflexivity.
Defined.

(** C8 as stated fails: submitted without a category, a valid form gives a
    transaction of category 'Other', not 'Food & Dining'. *)
Lemma add_unset_category_not_first_seeded :
  ~ add_prepends_with_default first_category_name.
Proof.
  intros H.
  specialize (H "t-1" Sample.today
                (App.setNewTx Sample.noCategoryForm
                              (App.initialState Sample.today))
                12%float "Taxi"
                eq_refl eq_refl eq_refl eq_refl).
  assert (Hd : "Taxi" <> EmptyString) by discriminate.
  specialize (H Hd).
  apply (f_equal (map Transaction.category)) in H.
  vm_compute in H. discriminate H.
Qed.

(** C8, amended.  A submission that passes validation prepends a new
    transaction whose id is the one drawn for it, whose date is the form's
    or today when unset, and whose category is the form's or 'Other' when
    unset; the form is reset to its initial state, whose category is the
    first seeded category, 'Food & Dining'; an id that is not in the
    collection keeps the ids of the collection distinct. *)
Theorem handleAddTransaction_prepends :
  forall (uuid today : string) (s : App.State) (x : float) (d : string),
    PartialTransaction.amount (App.newTx s) = Some x ->
    (x =? 0)%float = false ->
    is_nan x = false ->
    PartialTransaction.description (App.newTx s) = Some d ->
    d <> EmptyString ->
    App.transactions (App.handleAddTransaction uuid today s)
    = Transaction.mk
        uuid
        (with_default (PartialTransaction.date (App.newTx s)) today)
        x
        (with_default (PartialTransaction.category (App.newTx s)) "Other")
        d
        (PartialTransaction.type (App.newTx s))
      :: App.transactions s
    /\ App.newTx (App.handleAddTransaction uuid today s)
       = App.initialNewTx today
    /\ PartialTransaction.category (App.initialNewTx today)
       = Some "Food & Dining"
    /\ (NoDup (ids (App.transactions s)) ->
        ~ In uuid (ids (App.transactions s)) ->
        NoDup (ids (App.transactions (App.handleAddTransaction uuid today s)))).
Proof.
  intros uuid today s x d Hx Hz Hn Hd Hne.
  assert (Hv : valid_input (App.newTx s)).
  { split; [exists x | exists d]; auto. }
  rewrite (@handleAddTransaction_valid uuid today s Hv); simpl.
  rewrite Hx, Hd, !or_string_with_default; simpl.
  repeat split.
  - destruct d; [elim Hne|]; reflexivity.
  - intros Hnd Hfresh. constructor; assumption.
Qed.

(** On a sample: a taxi ride of 12 submitted without a category. *)
Lemma handleAddTransaction_prepends_witness :
  App.transactions
    (App.handleAddTransaction "t-1" Sample.today
       (App.setNewTx Sample.noCategoryForm (App.initialState Sample.today)))
  = [ Transaction.mk "t-1" "2024-01-12" 12%float "Other" "Taxi" expense ].
Proof.
  apply (handleAddTransaction_prepends "t-1" Sample.today
           (App.setNewTx Sample.noCategoryForm
                         (App.initialState Sample.today))
           (x := 12%float) (d := "Taxi")
           eq_refl eq_refl eq_refl eq_refl).
  discriminate.
Defined.

(** ** Amounts in the reachable collections *)

(** The state that holds the refund is reached by one edit and one
    submission. *)
Lemma refundState_reachable : reachable Sample.refundState.
Proof.
  unfold Sample.refundState.
  apply reach_add, reach_edit, reach_init.
Qed.

(** C9 as stated fails: a refund entered as -5 passes the guard, so a
    reachable collection holds a negative amount. *)
Lemma reachable_negative_amount :
  ~ (forall s : App.State,
       reachable s ->
       Forall (fun t => non_negative (Transaction.amount t))
              (App.transactions s)).
Proof.
  intros H.
  specialize (H Sample.refundState refundState_reachable).
  vm_compute in H.
  inversion H as [|t l Hneg Hrest].
  vm_compute in Hneg. discriminate Hneg.
Qed.

Lemma added_amount_non_zero (uuid today : string) (s : App.State) :
  Forall (fun t => non_zero_number (Transaction.amount t))
         (App.transactions s) ->
  Forall (fun t => non_zero_number (Transaction.amount t))
         (App.transactions (App.handleAddTransaction uuid today s)).
Proof.
  intros Hall. unfold App.handleAddTransaction.
  destruct (PartialTransaction.amount (App.newTx s)) as [x|] eqn:Hx; simpl;
    [|exact Hall].
  destruct (JS.truthy_number x) eqn:Ht; simpl; [|exact Hall].
  destruct (JS.truthy_opt JS.truthy_string
              (PartialTransaction.description (App.newTx s)));
    simpl; [|exact Hall].
  constructor; [|exact Hall]. simpl.
  apply truthy_number_spec; exact Ht.
Qed.

(** C9, amended.  Every transaction of a collection reached from the empty
    one by the add and delete handlers has an amount that is a number other
    than zero. *)
Theorem reachable_amounts_non_zero :
  forall s : App.State,
    reachable s ->
    Forall (fun t => non_zero_number (Transaction.amount t))
           (App.transactions s).
Proof.
  intros s Hr; induction Hr as [today|f s Hr IH|uuid today s Hr IH|id s Hr IH].
  - constructor.
  - exact IH.
  - apply added_amount_non_zero; exact IH.
  - simpl. rewrite Forall_forall in IH |- *.
    intros t Hin. apply filter_In in Hin. apply IH, Hin.
Qed.

(** On a sample: the collection that holds the refund of -5. *)
Lemma reachable_amounts_non_zero_witness :
  Forall (fun t => non_zero_number (Transaction.amount t))
         (App.transactions Sample.refundState).
Proof.
  apply (reachable_amounts_non_zero (s := Sample.refundState)).
  unfold Sample.refundState.
  apply reach_add, reach_edit, reach_init.
Defined.

(** ** The paid flag of a bill *)

Example toggle_sample :
  map Bill.isPaid (App.bills (App.toggleBillPaid "b-1" Sample.twoBills))
  = [true; true]
  /\ map Bill.isPaid (App.bills (App.toggleBillPaid "b-2" Sample.twoBills))
     = [false; false]
  /\ App.toggleBillPaid "b-3" Sample.twoBills = Sample.twoBills.
Proof. repeat split; reflexivity. Qed.

Lemma toggled_bills_related (id : string) (l : list Bill.t) :
  Forall2 (fun b b' =>
             same_bill_up_to_paid (String.eqb (Bill.id b) id) b b')
          l
          (map (fun b =>
                  if String.eqb (Bill.id b) id
                  then Bill.mk (Bill.id b) (Bill.name b) (Bill.amount b)
                               (Bill.dueDate b) (Bill.category b)
                               (negb (Bill.isPaid b))
                  else b)
               l).
Proof.
  induction l as [|b l IH]; simpl; constructor; [|exact IH].
  unfold same_bill_up_to_paid.
  destruct (String.eqb (Bill.id b) id); simpl; repeat split; reflexivity.
Qed.

Lemma toggle_one_bill_twice (id : string) (b : Bill.t) :
  let toggle b :=
    if String.eqb (Bill.id b) id
    then Bill.mk (Bill.id b) (Bill.name b) (Bill.amount b)
                 (Bill.dueDate b) (Bill.category b) (negb (Bill.isPaid b))
    else b in
  toggle (toggle b) = b.
Proof.
  destruct b as [i n a du c p]; simpl.
  destruct (String.eqb i id) eqn:E; simpl; rewrite E; [|reflexivity].
  rewrite negb_involutive; reflexivity.
Qed.

(** C10.  For every collection of bills and every id, the toggle gives a
    collection of the same length and order in which each bill is the bill
    of the same position, with [isPaid] negated when its id is the given
    one and unchanged otherwise, all other fields being kept; the rest of
    the state is untouched; and toggling twice with the same id gives back
    the state. *)
Theorem toggleBillPaid_flips_only_isPaid :
  forall (id : string) (s : App.State),
    Forall2 (fun b b' =>
               same_bill_up_to_paid (String.eqb (Bill.id b) id) b b')
            (App.bills s) (App.bills (App.toggleBillPaid id s))
    /\ App.transactions (App.toggleBillPaid id s) = App.transactions s
    /\ App.budgets (App.toggleBillPaid id s) = App.budgets s
    /\ App.investments (App.toggleBillPaid id s) = App.investments s
    /\ App.toggleBillPaid id (App.toggleBillPaid id s) = s.
Proof.
  intros id s; repeat split; try reflexivity.
  - apply toggled_bills_related.
  - destruct s as [txs bs bu inv open ntx nbu ninv].
    unfold App.toggleBillPaid; simpl. f_equal.
    rewrite map_map.
    induction bs as [|b bs IH]; simpl; [reflexivity|].
    rewrite IH. f_equal. apply (toggle_one_bill_twice id b).
Qed.

(** ** The filtered and sorted view *)

Example isoTime_epoch : Sample.isoTime "1970-01-01" = Some 0%Z.
Proof. reflexivity. Qed.

Example isoTime_sample : Sample.isoTime "2024-01-15" = Some 1705276800000%Z.
Proof. reflexivity. Qed.

Example lower_samples :
  Sample.lower "Food & DINING" = "food & dining"
  /\ Sample.lower Sample.alphaSigma = Sample.of_bytes [206; 177; 207; 130]
  /\ Sample.lower Sample.alphaSigmaAlpha
     = Sample.of_bytes [206; 177; 207; 131; 206; 177].
Proof. repeat split; reflexivity. Qed.

Example filtered_sample :
  App.filteredTransactions Sample.lower (@Sample.engineSort _)
                           Sample.isoTime Sample.threeTransactions "FOOD"
  = [Sample.groceries; Sample.bakery]
  /\ App.filteredTransactions Sample.lower (@Sample.engineSort _)
                              Sample.isoTime Sample.threeTransactions
                              EmptyString
     = [Sample.salary; Sample.groceries; Sample.bakery].
Proof. split; vm_compute; reflexivity. Qed.

(** *** Strings *)

Lemma startsWith_spec (p s : string) :
  JS.startsWith p s = true <-> exists r, s = (p ++ r)%string.
Proof.
  revert s; induction p as [|a p IH]; intros s; simpl.
  - split; [intros _; exists s; reflexivity | reflexivity].
  - destruct s as [|b s]; simpl.
    + split; [discriminate | intros [r Hr]; discriminate Hr].
    + rewrite andb_true_iff, IH. split.
      * intros [Hab [r Hr]]. apply Ascii.eqb_eq in Hab. subst.
        exists r; reflexivity.
      * intros [r Hr]. injection Hr as -> ->. split.
        -- apply Ascii.eqb_refl.
        -- exists r; reflexivity.
Qed.

Lemma includes_unfold (s sub : string) :
  JS.includes s sub
  = JS.startsWith sub s
    || match s with
       | EmptyString => false
       | String _ s' => JS.includes s' sub
       end.
Proof. destruct s; reflexivity. Qed.

Lemma includes_spec (s sub : string) :
  JS.includes s sub = true
  <-> exists pre post, s = (pre ++ sub ++ post)%string.
Proof.
  induction s as [|c s IH]; rewrite includes_unfold, orb_true_iff.
  - split.
    + intros [H|H]; [|discriminate H].
      apply startsWith_spec in H as [r Hr].
      exists EmptyString, r; exact Hr.
    + intros (pre & post & H). left. apply startsWith_spec.
      destruct pre; [|discriminate H]. exists post; exact H.
  - rewrite IH. split.
    + intros [H|(pre & post & H)].
      * apply startsWith_spec in H as [r Hr].
        exists EmptyString, r; exact Hr.
      * exists (String c pre), post; simpl; rewrite H; reflexivity.
    + intros (pre & post & H). destruct pre as [|c' pre]; simpl in H.
      * left. apply startsWith_spec. exists post; exact H.
      * right. injection H as _ H. exists pre, post; exact H.
Qed.

(** The test of the program is the occurrence of the lower-cased query in
    the lower-cased description or category. *)
Lemma matchesQuery_iff (toLowerCase : string -> string) (q : string)
    (t : Transaction.t) :
  App.matchesQuery toLowerCase q t = true <-> matches toLowerCase q t.
Proof.
  unfold App.matchesQuery, matches, occurs_lowered.
  rewrite orb_true_iff, !includes_spec; reflexivity.
Qed.


(** *** The sort *)

Section SortFacts.
Variable A : Type.
Variable cmp : A -> A -> comparison.

Lemma sort_insert_perm (x : A) (l : list A) :
  Permutation (JS.sort_insert cmp x l) (x :: l).
Proof.
  induction l as [|y l IH]; simpl; [apply Permutation_refl|].
  destruct (cmp x y); try apply Permutation_refl.
  eapply perm_trans; [apply perm_skip, IH | apply perm_swap].
Qed.

Lemma stable_sort_perm (l : list A) : Permutation (JS.stable_sort cmp l) l.
Proof.
  induction l as [|x l IH]; simpl; [apply perm_nil|].
  eapply perm_trans; [apply sort_insert_perm | apply perm_skip, IH].
Qed.


End SortFacts.

(** The stable sort meets what ECMAScript requires of [sort]. *)
Lemma stable_sort_conforms (A : Type) : JS.sort_contract (@JS.stable_sort A).
Proof.
  intros cmp l. split; [apply stable_sort_perm | reflexivity].
Qed.

(** So does the sample host sort. *)
Section ShortSortFacts.
Variable A : Type.
Variable cmp : A -> A -> comparison.

Lemma runAfter_app (descending : bool) (prev : A) (l : list A) :
  fst (Sample.runAfter cmp descending prev l)
  ++ snd (Sample.runAfter cmp descending prev l) = l.
Proof.
  revert prev; induction l as [|cur l IH]; intros prev; simpl;
    [reflexivity|].
  destruct (Bool.eqb (JS.is_Lt (cmp cur prev)) descending);
    [|reflexivity].
  specialize (IH cur).
  destruct (Sample.runAfter cmp descending cur l) as [run rest].
  simpl in *. rewrite IH; reflexivity.
Qed.

Lemma insertPivot_perm (sorted : list A) (pivot : A) :
  Permutation (Sample.insertPivot cmp sorted pivot) (pivot :: sorted).
Proof.
  unfold Sample.insertPivot. cbv zeta.
  eapply perm_trans; [apply Permutation_sym, Permutation_middle|].
  rewrite firstn_skipn. apply Permutation_refl.
Qed.

Lemma fold_insertPivot_perm (rest sorted : list A) :
  Permutation (fold_left (Sample.insertPivot cmp) rest sorted)
              (sorted ++ rest).
Proof.
  revert sorted; induction rest as [|x rest IH]; intros sorted; simpl.
  - rewrite app_nil_r. apply Permutation_refl.
  - eapply perm_trans; [apply IH|].
    eapply perm_trans;
      [apply Permutation_app_tail, insertPivot_perm|].
    simpl. apply Permutation_middle.
Qed.

Lemma shortSort_perm (l : list A) : Permutation (Sample.shortSort cmp l) l.
Proof.
  destruct l as [|a0 [|a1 l]]; try apply Permutation_refl.
  unfold Sample.shortSort.
  pose proof (runAfter_app (JS.is_Lt (cmp a1 a0)) a1 l) as E.
  destruct (Sample.runAfter cmp (JS.is_Lt (cmp a1 a0)) a1 l) as [run rest].
  simpl in E. subst l. cbv zeta.
  eapply perm_trans; [apply fold_insertPivot_perm|].
  change (a0 :: a1 :: run ++ rest) with ((a0 :: a1 :: run) ++ rest).
  apply Permutation_app_tail.
  destruct (JS.is_Lt (cmp a1 a0));
    [apply Permutation_sym, Permutation_rev | apply Permutation_refl].
Qed.
End ShortSortFacts.

Lemma engineSort_conforms (A : Type) : JS.sort_contract (@Sample.engineSort A).
Proof.
  intros cmp l. unfold Sample.engineSort.
  destruct (JS.consistent_on cmp l); split.
  - apply stable_sort_perm.
  - reflexivity.
  - apply shortSort_perm.
  - discriminate.
Qed.

Section DateFacts.
Variable getTime : string -> option Z.

Lemma byDateDesc_Gt (a b : Transaction.t) :
  App.byDateDesc getTime a b = Gt ->
  exists ta tb, getTime (Transaction.date a) = Some ta
                /\ getTime (Transaction.date b) = Some tb
                /\ (ta < tb)%Z.
Proof.
  unfold App.byDateDesc.
  destruct (getTime (Transaction.date b)) as [tb|];
    destruct (getTime (Transaction.date a)) as [ta|]; try discriminate.
  intros H. exists ta, tb. repeat split. apply Z.compare_gt_iff in H; lia.
Qed.


Lemma not_older_trans (a b c : Transaction.t) :
  not_older getTime a b -> not_older getTime b c -> not_older getTime a c.
Proof.
  unfold not_older.
  destruct (getTime (Transaction.date a)), (getTime (Transaction.date b)),
           (getTime (Transaction.date c)); try tauto; lia.
Qed.

Lemma sort_insert_dated (x : Transaction.t) (l : list Transaction.t) :
  dated getTime x -> Forall (dated getTime) l ->
  StronglySorted (not_older getTime) l ->
  StronglySorted (not_older getTime)
                 (JS.sort_insert (App.byDateDesc getTime) x l).
Proof.
  intros Hx Hl Hs; induction Hs as [|y l Hs IH Hy]; simpl.
  - constructor; constructor.
  - inversion Hl as [|y' l' Hdy Hdl]; subst.
    destruct (App.byDateDesc getTime x y) eqn:E.
    + constructor; [constructor; assumption|].
      assert (Hxy : not_older getTime x y).
      { revert E; unfold App.byDateDesc, not_older, dated in *.
        destruct (getTime (Transaction.date y)),
                 (getTime (Transaction.date x)); congruence. }
      constructor; [exact Hxy|].
      eapply Forall_impl; [|exact Hy].
      intros z Hz; eapply not_older_trans; eassumption.
    + constructor; [constructor; assumption|].
      assert (Hxy : not_older getTime x y).
      { revert E; unfold App.byDateDesc, not_older, dated in *.
        destruct (getTime (Transaction.date y)),
                 (getTime (Transaction.date x)); congruence. }
      constructor; [exact Hxy|].
      eapply Forall_impl; [|exact Hy].
      intros z Hz; eapply not_older_trans; eassumption.
    + constructor; [apply IH; assumption|].
      apply byDateDesc_Gt in E as (tx & ty & Ex & Ey & Hlt).
      eapply Permutation_Forall;
        [apply Permutation_sym, sort_insert_perm|].
      constructor; [|exact Hy].
      unfold not_older; rewrite Ex, Ey; lia.
Qed.

Lemma stable_sort_dated (l : list Transaction.t) :
  Forall (dated getTime) l ->
  StronglySorted (not_older getTime) (JS.stable_sort (App.byDateDesc getTime) l).
Proof.
  induction l as [|x l IH]; simpl; intros Hl; [constructor|].
  inversion Hl as [|x' l' Hx Hl']; subst.
  apply sort_insert_dated; [exact Hx | | apply IH; exact Hl'].
  eapply Permutation_Forall; [apply Permutation_sym, stable_sort_perm | exact Hl'].
Qed.

(** On transactions whose dates the host reads, the comparator of the view
    is consistent. *)
Lemma byDateDesc_consistent_at (a b c : Transaction.t) :
  dated getTime a -> dated getTime b -> dated getTime c ->
  JS.consistent_at (App.byDateDesc getTime) a b c = true.
Proof.
  unfold dated, JS.consistent_at, App.byDateDesc.
  destruct (getTime (Transaction.date a)) as [ta|]; [|congruence].
  destruct (getTime (Transaction.date b)) as [tb|]; [|congruence].
  destruct (getTime (Transaction.date c)) as [tc|]; [|congruence].
  intros _ _ _. rewrite Z.compare_refl.
  destruct (Z.compare_spec tb ta), (Z.compare_spec ta tb),
           (Z.compare_spec tc tb), (Z.compare_spec tc ta);
    simpl; try reflexivity; lia.
Qed.

Lemma dated_consistent (l : list Transaction.t) :
  Forall (dated getTime) l ->
  JS.consistent_on (App.byDateDesc getTime) l = true.
Proof.
  intros Hd. rewrite Forall_forall in Hd. unfold JS.consistent_on.
  apply forallb_forall; intros a Ha.
  apply forallb_forall; intros b Hb.
  apply forallb_forall; intros c Hc.
  apply byDateDesc_consistent_at; apply Hd; assumption.
Qed.


End DateFacts.



(** *** The view on a host *)

Section ViewFacts.
Variable toLowerCase : string -> string.
Variable arraySort :
  (Transaction.t -> Transaction.t -> comparison) ->
  list Transaction.t -> list Transaction.t.
Variable getTime : string -> option Z.
Hypothesis arraySort_conforms : JS.sort_contract arraySort.

Lemma view_perm (transactions : list Transaction.t) (q : string) :
  Permutation
    (App.filteredTransactions toLowerCase arraySort getTime transactions q)
    (filter (App.matchesQuery toLowerCase q) transactions).
Proof. unfold App.filteredTransactions. apply arraySort_conforms. Qed.

Lemma view_In (transactions : list Transaction.t) (q : string)
    (t : Transaction.t) :
  In t (App.filteredTransactions toLowerCase arraySort getTime
                                 transactions q)
  <-> In t transactions /\ App.matchesQuery toLowerCase q t = true.
Proof.
  rewrite <- filter_In. split; intros H.
  - eapply Permutation_in; [apply view_perm | exact H].
  - eapply Permutation_in; [apply Permutation_sym, view_perm | exact H].
Qed.

(** When the host reads the dates of the matching transactions, the view
    is their stable sort. *)
Lemma view_of_dated (transactions : list Transaction.t) (q : string) :
  Forall (dated getTime) (filter (App.matchesQuery toLowerCase q)
                                 transactions) ->
  App.filteredTransactions toLowerCase arraySort getTime transactions q
  = JS.stable_sort (App.byDateDesc getTime)
                   (filter (App.matchesQuery toLowerCase q) transactions).
Proof.
  intros Hd. unfold App.filteredTransactions.
  apply arraySort_conforms, dated_consistent, Hd.
Qed.
End ViewFacts.

Lemma dated_by_check (getTime : string -> option Z)
    (l : list Transaction.t) :
  forallb (fun t => match getTime (Transaction.date t) with
                    | Some _ => true
                    | None => false
                    end) l = true ->
  Forall (dated getTime) l.
Proof.
  intros H. apply Forall_forall. intros t Ht.
  rewrite forallb_forall in H. specialize (H t Ht). unfold dated.
  destruct (getTime (Transaction.date t)); [discriminate|discriminate H].
Qed.

(** The lower-casing of the host is not letter by letter: a description
    can have the query as a part, letter for letter, and not be found.
    The capital sigma that ends the query lower-cases to the final sigma;
    the one inside the description does not. *)
Example final_sigma_not_found :
  Transaction.description Sample.greekTransaction
  = (Sample.alphaSigma ++ Sample.of_bytes [206; 145])%string
  /\ App.filteredTransactions Sample.lower (@Sample.engineSort _)
                              Sample.isoTime [Sample.greekTransaction]
                              Sample.alphaSigma
     = [].
Proof. split; vm_compute; reflexivity. Qed.




(** * Further properties of the handlers and of the derivations *)

(** ** Deleting a transaction *)

Lemma deleteTransaction_app (id : string) (l1 l2 : list Transaction.t) :
  filter (fun t => negb (String.eqb (Transaction.id t) id)) (l1 ++ l2)
  = filter (fun t => negb (String.eqb (Transaction.id t) id)) l1
    ++ filter (fun t => negb (String.eqb (Transaction.id t) id)) l2.
Proof. apply filter_app. Qed.

(** X1.  In a collection where the id occurs once, at any position, the delete
    handler removes the transaction of that id and keeps the others in
    their order; the other parts of the state are untouched. *)
Theorem deleteTransaction_removes_the_one :
  forall (s : App.State) (l1 l2 : list Transaction.t) (t : Transaction.t),
    App.transactions s = l1 ++ t :: l2 ->
    ~ In (Transaction.id t) (ids l1) ->
    ~ In (Transaction.id t) (ids l2) ->
    App.deleteTransaction (Transaction.id t) s
    = App.mkState (l1 ++ l2) (App.bills s) (App.budgets s)
                  (App.investments s) (App.isModalOpen s) (App.newTx s)
                  (App.newBudget s) (App.newInvestment s).
Proof.
  intros s l1 l2 t Hs H1 H2. unfold App.deleteTransaction.
  rewrite Hs, deleteTransaction_app; simpl.
  rewrite String.eqb_refl; simpl.
  rewrite !delete_absent_id by assumption. reflexivity.
Qed.

(** On a sample: the older of two transactions is deleted. *)
Lemma deleteTransaction_removes_the_one_witness :
  App.transactions (App.deleteTransaction "t-9" Sample.lunchAndRefund)
  = firstn 1 (App.transactions Sample.lunchAndRefund).
Proof.
  pose proof (@deleteTransaction_removes_the_one
                Sample.lunchAndRefund
                (firstn 1 (App.transactions Sample.lunchAndRefund)) []
                (Transaction.mk "t-9" "2024-01-13" (-5)%float
                                "Shopping" "Refund" expense)
                eq_refl) as H.
  simpl in H. rewrite H.
  - reflexivity.
  - vm_compute. intros [E|[]]; discriminate E.
  - intros [].
Defined.

(** X2.  Deleting an id that the collection does not hold changes nothing in
    the state. *)
Theorem deleteTransaction_absent_id :
  forall (id : string) (s : App.State),
    ~ In id (ids (App.transactions s)) ->
    App.deleteTransaction id s = s.
Proof.
  intros id s H. unfold App.deleteTransaction.
  rewrite delete_absent_id by exact H. destruct s; reflexivity.
Qed.

(** On a sample: an id that was never drawn. *)
Lemma deleteTransaction_absent_id_witness :
  App.deleteTransaction "t-0" Sample.lunchAndRefund = Sample.lunchAndRefund.
Proof.
  apply (@deleteTransaction_absent_id "t-0" Sample.lunchAndRefund).
  vm_compute. intros [E|[E|[]]]; discriminate E.
Defined.

Lemma filter_filter_swap (A : Type) (p q : A -> bool) (l : list A) :
  filter p (filter q l) = filter q (filter p l).
Proof.
  induction l as [|x l IH]; simpl; [reflexivity|].
  destruct (p x) eqn:P, (q x) eqn:Q; simpl; rewrite ?P, ?Q, IH; reflexivity.
Qed.

Lemma filter_idempotent (A : Type) (p : A -> bool) (l : list A) :
  filter p (filter p l) = filter p l.
Proof.
  induction l as [|x l IH]; simpl; [reflexivity|].
  destruct (p x) eqn:P; simpl; rewrite ?P, IH; reflexivity.
Qed.

(** X3.  After a deletion no transaction of the collection has the id, however
    many had it; the transactions kept are exactly those of another id;
    deleting again changes nothing, and two deletions can be done in either
    order. *)
Theorem deleteTransaction_clears_id :
  forall (a b : string) (s : App.State),
    ~ In a (ids (App.transactions (App.deleteTransaction a s)))
    /\ (forall t, In t (App.transactions (App.deleteTransaction a s))
                  <-> In t (App.transactions s) /\ Transaction.id t <> a)
    /\ App.deleteTransaction a (App.deleteTransaction a s)
       = App.deleteTransaction a s
    /\ App.deleteTransaction a (App.deleteTransaction b s)
       = App.deleteTransaction b (App.deleteTransaction a s).
Proof.
  intros a b s.
  assert (Hin : forall t, In t (App.transactions (App.deleteTransaction a s))
                          <-> In t (App.transactions s)
                              /\ Transaction.id t <> a).
  { intros t; simpl. rewrite filter_In, negb_true_iff.
    destruct (String.eqb_spec (Transaction.id t) a); intuition congruence. }
  split; [|split; [exact Hin|split]].
  - unfold ids. rewrite in_map_iff. intros (t & E & Ht).
    apply Hin in Ht. tauto.
  - unfold App.deleteTransaction; simpl. rewrite filter_idempotent.
    reflexivity.
  - unfold App.deleteTransaction; simpl. f_equal. apply filter_filter_swap.
Qed.

(** ** What an added transaction changes in the derivations *)

Lemma added_transaction_type (uuid today : string) (s : App.State) :
  App.transactions (App.handleAddTransaction uuid today s)
  = App.transactions s
  \/ exists t,
       App.transactions (App.handleAddTransaction uuid today s)
       = t :: App.transactions s
       /\ Transaction.type t = PartialTransaction.type (App.newTx s)
       /\ Transaction.id t = uuid.
Proof.
  unfold App.handleAddTransaction.
  destruct (negb _ || negb _); [left; reflexivity|right].
  eexists; repeat split; reflexivity.
Qed.

(** X4.  Submitting the form with the type income, accepted or not, changes
    neither the total of the expenses, nor the progress of any budget, nor
    the category breakdown. *)
Theorem adding_income_keeps_expense_derivations :
  forall (inheritedKey : string -> bool) (uuid today : string)
         (s : App.State),
    PartialTransaction.type (App.newTx s) = income ->
    let s' := App.handleAddTransaction uuid today s in
    Stats.expenses (App.stats (App.transactions s'))
    = Stats.expenses (App.stats (App.transactions s))
    /\ App.budgetProgress (App.budgets s') (App.transactions s')
       = App.budgetProgress (App.budgets s) (App.transactions s)
    /\ App.categoryData inheritedKey (App.transactions s')
       = App.categoryData inheritedKey (App.transactions s).
Proof.
  intros inheritedKey uuid today s Hty s'.
  assert (Hb : App.budgets s' = App.budgets s).
  { unfold s', App.handleAddTransaction.
    destruct (negb _ || negb _); reflexivity. }
  rewrite Hb.
  destruct (added_transaction_type uuid today s) as [E|(t & E & Et & _)];
    fold s' in E; rewrite E.
  - repeat split; reflexivity.
  - rewrite Hty in Et.
    assert (Hx : App.is_expense t = false)
      by (unfold App.is_expense; rewrite Et; reflexivity).
    split; [|split].
    + unfold App.stats; simpl. rewrite Hx. reflexivity.
    + unfold App.budgetProgress. apply map_ext; intros b; simpl.
      rewrite Hx; reflexivity.
    + unfold App.categoryData, App.categoryObject; simpl.
      rewrite Hx; reflexivity.
Qed.

(** On a sample: a salary is submitted after a lunch and a refund. *)
Lemma adding_income_keeps_expense_derivations_witness :
  Stats.expenses
    (App.stats
       (App.transactions
          (App.handleAddTransaction "t-12" Sample.today
             (App.setNewTx Sample.payForm Sample.lunchAndRefund))))
  = Stats.expenses (App.stats (App.transactions Sample.lunchAndRefund)).
Proof.
  apply (@adding_income_keeps_expense_derivations
           (fun _ => false) "t-12" Sample.today
           (App.setNewTx Sample.payForm Sample.lunchAndRefund)
           eq_refl).
Defined.

(** X5.  Submitting the form with the type expense, accepted or not, does not
    change the total of the income. *)
Theorem adding_expense_keeps_income :
  forall (uuid today : string) (s : App.State),
    PartialTransaction.type (App.newTx s) = expense ->
    Stats.income
      (App.stats (App.transactions (App.handleAddTransaction uuid today s)))
    = Stats.income (App.stats (App.transactions s)).
Proof.
  intros uuid today s Hty.
  destruct (added_transaction_type uuid today s) as [E|(t & E & Et & _)];
    rewrite E; [reflexivity|].
  rewrite Hty in Et. unfold App.stats; simpl.
  unfold App.is_income at 1. rewrite Et; reflexivity.
Qed.

(** On a sample: a lunch is submitted after a refund. *)
Lemma adding_expense_keeps_income_witness :
  Stats.income (App.stats (App.transactions Sample.lunchAndRefund))
  = Stats.income (App.stats (App.transactions Sample.refundState)).
Proof.
  apply (@adding_expense_keeps_income "t-11" Sample.today
           (App.setNewTx Sample.lunchForm Sample.refundState) eq_refl).
Defined.

(** ** What the stored transactions always have *)

Lemma or_string_not_empty (o : option string) (dflt : string) :
  dflt <> EmptyString -> JS.or_string o dflt <> EmptyString.
Proof.
  intros H. destruct o as [[|c d]|]; simpl; congruence.
Qed.

(** X6.  In every state reached by editing the form, submitting it and deleting
    transactions, each stored transaction has a description and a category
    that are not empty. *)
Theorem reachable_descriptions_and_categories :
  forall s : App.State,
    reachable s ->
    Forall (fun t => Transaction.description t <> EmptyString
                     /\ Transaction.category t <> EmptyString)
           (App.transactions s).
Proof.
  intros s Hr; induction Hr as [today|f s Hr IH|uuid today s Hr IH|id s Hr IH].
  - constructor.
  - exact IH.
  - unfold App.handleAddTransaction.
    destruct (JS.truthy_opt JS.truthy_number _); simpl; [|exact IH].
    destruct (PartialTransaction.description (App.newTx s)) as [d|] eqn:Hd;
      simpl; [|exact IH].
    destruct d as [|c d]; simpl; [exact IH|].
    constructor; [|exact IH]. simpl. split.
    + discriminate.
    + apply or_string_not_empty; discriminate.
  - simpl. rewrite Forall_forall in IH |- *.
    intros t Hin. apply filter_In in Hin. apply IH, Hin.
Qed.

(** On a sample: the state after a lunch and a refund. *)
Lemma reachable_descriptions_and_categories_witness :
  Forall (fun t => Transaction.description t <> EmptyString
                   /\ Transaction.category t <> EmptyString)
         (App.transactions Sample.lunchAndRefund).
Proof.
  apply (@reachable_descriptions_and_categories Sample.lunchAndRefund).
  unfold Sample.lunchAndRefund, Sample.refundState.
  apply reach_add, reach_edit, reach_add, reach_edit, reach_init.
Defined.

Lemma ids_of_kept (id : string) (l : list Transaction.t) :
  NoDup (ids l) ->
  NoDup (ids (filter (fun t => negb (String.eqb (Transaction.id t) id)) l)).
Proof.
  induction l as [|t l IH]; simpl; intros H; [constructor|].
  inversion H as [|? ? Hn Hl]; subst.
  destruct (negb _); simpl; [|apply IH, Hl].
  constructor; [|apply IH, Hl].
  unfold ids in *. rewrite in_map_iff in *. intros (u & E & Hu).
  apply Hn. exists u. split; [exact E|].
  apply filter_In in Hu. apply Hu.
Qed.

(** X7.  When every id drawn for a new transaction is one the collection does
    not hold, the ids of the collection stay distinct through additions and
    deletions. *)
Theorem reachable_ids_distinct :
  forall s : App.State,
    reachable_fresh s -> NoDup (ids (App.transactions s)).
Proof.
  intros s Hr;
    induction Hr as [today|f s Hr IH|uuid today s Hr IH Hf|id s Hr IH].
  - constructor.
  - exact IH.
  - destruct (added_transaction_type uuid today s) as [E|(t & E & _ & Et)].
    + rewrite E; exact IH.
    + rewrite E. simpl. constructor; [rewrite Et; exact Hf | exact IH].
  - simpl. apply ids_of_kept, IH.
Qed.

(** On a sample: two submissions under the ids 't-9' and 't-11'. *)
Lemma reachable_ids_distinct_witness :
  NoDup (ids (App.transactions Sample.lunchAndRefund)).
Proof.
  apply (@reachable_ids_distinct Sample.lunchAndRefund).
  unfold Sample.lunchAndRefund, Sample.refundState.
  apply fresh_add.
  - apply fresh_edit, fresh_add; [apply fresh_edit, fresh_init|].
    intros [].
  - vm_compute. intros [E|[]]; discriminate E.
Defined.

(** ** The type buttons of the transaction form *)

(** X8.  Pressing a type button changes the type of the form and nothing else:
    a valid form submitted afterwards gives a transaction of the pressed
    type with the category the form already had.  The form starts with the
    category 'Food & Dining', which is offered for expenses and not for
    income. *)
Theorem type_button_keeps_category :
  forall (ty : TransactionType) (uuid today : string) (s : App.State)
         (x : float) (d : string),
    PartialTransaction.amount (App.newTx s) = Some x ->
    (x =? 0)%float = false ->
    is_nan x = false ->
    PartialTransaction.description (App.newTx s) = Some d ->
    d <> EmptyString ->
    App.transactions
      (App.handleAddTransaction uuid today (App.selectType ty s))
    = Transaction.mk
        uuid
        (with_default (PartialTransaction.date (App.newTx s)) today)
        x
        (with_default (PartialTransaction.category (App.newTx s)) "Other")
        d
        ty
      :: App.transactions s
    /\ PartialTransaction.category (App.initialNewTx today)
       = Some "Food & Dining"
    /\ In "Food & Dining" (option_names expense)
    /\ ~ In "Food & Dining" (option_names income).
Proof.
  intros ty uuid today s x d Hx Hz Hn Hd Hne.
  assert (Hv : valid_input (App.newTx (App.selectType ty s))).
  { split; [exists x | exists d]; auto. }
  rewrite (@handleAddTransaction_valid uuid today _ Hv); simpl.
  rewrite Hx, Hd, !or_string_with_default; simpl.
  repeat split.
  - destruct d; [elim Hne|]; reflexivity.
  - vm_compute; tauto.
  - vm_compute. intros [E|[E|[]]]; discriminate E.
Qed.

(** On a sample: the income button is pressed on a form filled for a lunch. *)
Lemma type_button_keeps_category_witness :
  App.transactions
    (App.handleAddTransaction "t-2" Sample.today
       (App.selectType income
          (App.setNewTx Sample.lunchForm (App.initialState Sample.today))))
  = [ Transaction.mk "t-2" "2024-01-14" 40%float "Food & Dining" "Lunch"
                     income ].
Proof.
  apply (@type_button_keeps_category income "t-2" Sample.today
           (App.setNewTx Sample.lunchForm (App.initialState Sample.today))
           40%float "Lunch" eq_refl eq_refl eq_refl eq_refl).
  discriminate.
Defined.

(** ** Bills *)

Lemma toggle_absent (id : string) (l : list Bill.t) :
  ~ In id (bill_ids l) ->
  map (fun b =>
         if String.eqb (Bill.id b) id
         then Bill.mk (Bill.id b) (Bill.name b) (Bill.amount b)
                      (Bill.dueDate b) (Bill.category b)
                      (negb (Bill.isPaid b))
         else b) l
  = l.
Proof.
  induction l as [|b l IH]; simpl; intros H; [reflexivity|].
  destruct (String.eqb_spec (Bill.id b) id) as [E|E].
  - elim H; left; exact E.
  - rewrite IH; [reflexivity|]. intros Hin; apply H; right; exact Hin.
Qed.

(** X9.  A bill is added at the end of the collection, unpaid, whatever the form
    holds; toggling the id it was given, when no other bill has it, marks
    that bill as paid and leaves the bills before it as they were. *)
Theorem added_bill_then_toggled :
  forall (newBill : PartialBill.t) (uuid today : string) (s : App.State),
    ~ In uuid (bill_ids (App.bills s)) ->
    let bill paid :=
      Bill.mk uuid
              (with_default (PartialBill.name newBill) EmptyString)
              (JS.Number (PartialBill.amount newBill))
              (with_default (PartialBill.dueDate newBill) today)
              (with_default (PartialBill.category newBill) "Utilities")
              paid in
    App.bills (App.handleAddBill newBill uuid today s)
    = App.bills s ++ [bill false]
    /\ App.bills
         (App.toggleBillPaid uuid (App.handleAddBill newBill uuid today s))
       = App.bills s ++ [bill true].
Proof.
  intros newBill uuid today s Hf bill; subst bill; simpl.
  rewrite !or_string_with_default. split; [reflexivity|].
  rewrite map_app, (@toggle_absent _ _ Hf); simpl.
  rewrite String.eqb_refl; reflexivity.
Qed.

(** On a sample: the rent is added to two bills and marked as paid. *)
Lemma added_bill_then_toggled_witness :
  map Bill.isPaid
      (App.bills
         (App.toggleBillPaid "b-3"
            (App.handleAddBill Sample.rentForm "b-3" Sample.today
                               Sample.twoBills)))
  = [false; true; true].
Proof.
  destruct (@added_bill_then_toggled Sample.rentForm "b-3" Sample.today
              Sample.twoBills) as [_ H].
  - vm_compute. intros [E|[E|[]]]; discriminate E.
  - rewrite H. reflexivity.
Defined.

Lemma toggle_two_ids (a b : string) (x : Bill.t) :
  let toggle id x :=
    if String.eqb (Bill.id x) id
    then Bill.mk (Bill.id x) (Bill.name x) (Bill.amount x)
                 (Bill.dueDate x) (Bill.category x) (negb (Bill.isPaid x))
    else x in
  toggle a (toggle b x) = toggle b (toggle a x).
Proof.
  destruct x as [i n am du c p]; simpl.
  destruct (String.eqb i a) eqn:Ea, (String.eqb i b) eqn:Eb; simpl;
    rewrite ?Ea, ?Eb; reflexivity.
Qed.

(** X10.  Toggling an id that no bill has changes nothing in the state. *)
Theorem toggleBillPaid_absent_id :
  forall (id : string) (s : App.State),
    ~ In id (bill_ids (App.bills s)) ->
    App.toggleBillPaid id s = s.
Proof.
  intros id s H. unfold App.toggleBillPaid.
  rewrite (@toggle_absent _ _ H). destruct s; reflexivity.
Qed.

(** On a sample: two bills, neither of id 'b-3'. *)
Lemma toggleBillPaid_absent_id_witness :
  App.toggleBillPaid "b-3" Sample.twoBills = Sample.twoBills.
Proof.
  apply (@toggleBillPaid_absent_id "b-3" Sample.twoBills).
  vm_compute. intros [E|[E|[]]]; discriminate E.
Defined.

(** X11.  Two toggles can be done in either order. *)
Theorem toggleBillPaid_commutes :
  forall (a b : string) (s : App.State),
    App.toggleBillPaid a (App.toggleBillPaid b s)
    = App.toggleBillPaid b (App.toggleBillPaid a s).
Proof.
  intros a b s. unfold App.toggleBillPaid; simpl. f_equal.
  rewrite !map_map. apply map_ext. intros x. apply (toggle_two_ids a b x).
Qed.

(** ** Division by a zero denominator *)

Lemma eqb_zero_spec (x : float) :
  (x =? 0)%float = true -> exists s, Prim2SF x = S754_zero s.
Proof.
  rewrite eqb_spec. change (Prim2SF 0) with (S754_zero false).
  unfold SFeqb.
  destruct (Prim2SF x) as [s|s| |s m e]; simpl;
    try destruct s; try discriminate; eauto.
Qed.

(** A quotient by zero, multiplied by 100, is [NaN] or an infinity. *)
Lemma quotient_by_zero_times_100 (n d : float) :
  (d =? 0)%float = true ->
  let v := ((n / d) * 100)%float in
  v = nan \/ v = infinity \/ v = neg_infinity.
Proof.
  intros Hd v. apply eqb_zero_spec in Hd as [sd Hd].
  assert (H : Prim2SF v = S754_nan \/ exists s, Prim2SF v = S754_infinity s).
  { unfold v. rewrite mul_spec, div_spec, Hd.
    change (Prim2SF 100) with (S754_finite false 7036874417766400 (-46)).
    destruct (Prim2SF n) as [s|s| |s m e]; simpl; eauto. }
  destruct H as [H|[[|] H]].
  - left. apply Prim2SF_inj. rewrite H. reflexivity.
  - right; right. apply Prim2SF_inj. rewrite H. reflexivity.
  - right; left. apply Prim2SF_inj. rewrite H. reflexivity.
Qed.

(** X12.  Whenever the purchase price of an investment is zero, its performance
    is [NaN] or an infinity, whatever its current price, and the table
    shows that name instead of a number. *)
Theorem performance_not_finite_at_zero_price :
  forall inv : Investment.t,
    (Investment.purchasePrice inv =? 0)%float = true ->
    JS.isFinite (App.performance inv) = false
    /\ (App.performanceCell inv = App.ShownNaN
        \/ App.performanceCell inv = App.ShownInfinity
        \/ App.performanceCell inv = App.ShownNegInfinity).
Proof.
  intros inv H. unfold App.performanceCell.
  destruct (@quotient_by_zero_times_100
              (Investment.currentPrice inv - Investment.purchasePrice inv)
              _ H) as [E|[E|E]];
    fold (App.performance inv) in E; rewrite E;
    split; try reflexivity; vm_compute; tauto.
Qed.

(** On a sample: the asset received for free. *)
Lemma performance_not_finite_at_zero_price_witness :
  JS.isFinite
    (App.performance
       (Investment.mk "i-1" "Gift shares" "GFT" 2%float 0%float 15%float
                      "2024-01-10" Stock))
  = false.
Proof.
  apply (@performance_not_finite_at_zero_price
           (Investment.mk "i-1" "Gift shares" "GFT" 2%float 0%float
                          15%float "2024-01-10" Stock)).
  reflexivity.
Defined.

(** X13.  Whenever the limit of a budget is zero, its percentage is [NaN], 100 or
    [-Infinity], whatever was spent: it is never a number below 100 that a
    progress bar could show, and never 0. *)
Theorem percentage_at_zero_limit :
  forall (budgets : list Budget.t) (transactions : list Transaction.t)
         (p : BudgetProgress.t),
    In p (App.budgetProgress budgets transactions) ->
    (BudgetProgress.limit p =? 0)%float = true ->
    BudgetProgress.percentage p = nan
    \/ BudgetProgress.percentage p = 100%float
    \/ BudgetProgress.percentage p = neg_infinity.
Proof.
  intros budgets transactions p Hin H.
  unfold App.budgetProgress in Hin.
  apply in_map_iff in Hin as (b & <- & _); simpl in *.
  match goal with
  | |- JS.Math_min [((?n / ?d) * 100)%float; _] = _ \/ _ =>
      destruct (@quotient_by_zero_times_100 n d H) as [E|[E|E]]; rewrite E
  end.
  - left; reflexivity.
  - right; left; reflexivity.
  - right; right; reflexivity.
Qed.

(** On a sample: the budget of limit 0 after a lunch of 40. *)
Lemma percentage_at_zero_limit_witness :
  let p := BudgetProgress.mk "b-1" "Food & Dining" 0%float 40%float
                             100%float in
  BudgetProgress.percentage p = nan
  \/ BudgetProgress.percentage p = 100%float
  \/ BudgetProgress.percentage p = neg_infinity.
Proof.
  intros p.
  apply (@percentage_at_zero_limit
           (App.budgets Sample.zeroLimitSpentState)
           (App.transactions Sample.zeroLimitSpentState) p).
  - left; reflexivity.
  - reflexivity.
Defined.

Lemma ltb_zero_false (x : float) :
  (x =? 0)%float = true \/ is_nan x = true -> (0 <? x)%float = false.
Proof.
  rewrite ltb_spec. change (Prim2SF 0) with (S754_zero false).
  intros [H|H].
  - apply eqb_zero_spec in H as [s ->]. reflexivity.
  - unfold is_nan in H. rewrite eqb_spec in H. unfold SFeqb in H.
    destruct (Prim2SF x) as [s|s| |s m e] eqn:E; try reflexivity;
      rewrite SFcompare_refl in H by discriminate; discriminate H.
Qed.

(** X14.  The portfolio percentage is guarded: when the total invested is zero
    or [NaN] the percentage is 0, so that an empty portfolio, or one of
    assets bought for nothing, shows 0 and no division is made; the profit
    is the current value minus the total invested. *)
Theorem investmentStats_guards_zero_invested :
  forall investments : list Investment.t,
    let st := App.investmentStats investments in
    ((InvestmentStats.totalInvested st =? 0)%float = true
     \/ is_nan (InvestmentStats.totalInvested st) = true ->
     InvestmentStats.profitLossPercentage st = 0%float)
    /\ InvestmentStats.profitLoss st
       = (InvestmentStats.currentValue st
          - InvestmentStats.totalInvested st)%float
    /\ App.investmentStats []
       = InvestmentStats.mk 0%float 0%float 0%float 0%float.
Proof.
  intros investments st. split; [|split; reflexivity].
  intros H. apply ltb_zero_false in H.
  unfold st, App.investmentStats in *; simpl in *. rewrite H. reflexivity.
Qed.

(** On a sample: the portfolio that holds the asset received for free. *)
Lemma investmentStats_guards_zero_invested_witness :
  InvestmentStats.profitLossPercentage
    (App.investmentStats (App.investments Sample.freeAssetState))
  = 0%float.
Proof.
  destruct (@investmentStats_guards_zero_invested
              (App.investments Sample.freeAssetState)) as [H _].
  apply H. left; reflexivity.
Defined.

(** ** The insight service *)

(** X15.  The text returned to the caller is never empty: it is the fixed
    invitation when there is no transaction, the fixed error text when the
    request throws, the fixed apology when the answer has no text or an
    empty one, and otherwise the answer's text. *)
Theorem getFinancialInsights_texts :
  forall (generateContent : list Gemini.SummaryItem -> Gemini.Response)
         (transactions : list Transaction.t),
    let r := Gemini.getFinancialInsights generateContent transactions in
    r <> EmptyString
    /\ ((transactions = []
         /\ r = "Start adding transactions to get AI-powered financial insights!")
        \/ (generateContent (Gemini.summary transactions) = Gemini.Failed
            /\ r = "Error connecting to AI advisor. Please try again later.")
        \/ ((generateContent (Gemini.summary transactions)
             = Gemini.Answered None
             \/ generateContent (Gemini.summary transactions)
                = Gemini.Answered (Some EmptyString))
            /\ r = "Unable to generate insights at this time.")
        \/ (generateContent (Gemini.summary transactions)
            = Gemini.Answered (Some r)
            /\ transactions <> [])).
Proof.
  intros g l r; subst r. unfold Gemini.getFinancialInsights.
  destruct l as [|t l]; [split; [discriminate|left; split; reflexivity]|].
  destruct (g (Gemini.summary (t :: l))) as [|[[|c text]|]] eqn:E; simpl.
  - split; [discriminate|]. right; left; split; reflexivity.
  - split; [discriminate|]. right; right; left; split; auto.
  - split; [discriminate|]. right; right; right; split;
      [reflexivity|discriminate].
  - split; [discriminate|]. right; right; left; split; auto.
Qed.

Lemma slice_minus_20_short (A : Type) (l : list A) :
  List.length l <= 20 -> JS.slice (-20) l = l.
Proof.
  intros H. rewrite slice_minus_20.
  replace (List.length l - 20) with 0 by lia. reflexivity.
Qed.

(** X16.  The request never carries more than twenty entries; a collection of at
    most twenty transactions is sent whole, in its order; and behind
    twenty transactions at the end of the collection, the others are not
    sent. *)
Theorem summary_size_and_content :
  forall transactions : list Transaction.t,
    List.length (Gemini.summary transactions)
    = Nat.min 20 (List.length transactions)
    /\ (List.length transactions <= 20 ->
        Gemini.summary transactions = map Gemini.summarize transactions)
    /\ (forall before last20,
          transactions = before ++ last20 ->
          List.length last20 = 20 ->
          Gemini.summary transactions = map Gemini.summarize last20).
Proof.
  intros l. rewrite summary_is_end_of_collection.
  split; [|split].
  - rewrite length_map, length_skipn. lia.
  - intros H. replace (List.length l - 20) with 0 by lia. reflexivity.
  - intros before last20 -> H. rewrite length_app, H.
    replace (List.length before + 20 - 20) with (List.length before + 0)
      by lia.
    rewrite skipn_app, Nat.add_0_r, skipn_all.
    replace (List.length before - List.length before) with 0 by lia.
    reflexivity.
Qed.

(** On a sample: the three transactions of the search example. *)
Lemma summary_size_and_content_witness :
  Gemini.summary Sample.threeTransactions
  = map Gemini.summarize Sample.threeTransactions.
Proof.
  destruct (@summary_size_and_content Sample.threeTransactions)
    as (_ & H & _).
  apply H. vm_compute. lia.
Defined.

(** ** The recent transactions of the dashboard *)

Lemma slice_range_0_5 (A : Type) (l : list A) :
  JS.slice_range 0 5 l = firstn 5 l.
Proof.
  unfold JS.slice_range. cbv zeta beta.
  change (0 <? 0)%Z with false. change (5 <? 0)%Z with false. cbv iota.
  rewrite (Z.min_l 0) by lia. change (Z.to_nat 0) with 0%nat.
  rewrite skipn_O.
  destruct (Z.min_spec 5 (Z.of_nat (List.length l))) as [[H ->]|[H ->]].
  - reflexivity.
  - rewrite Z.sub_0_r, Z.max_l, Nat2Z.id by lia.
    rewrite !firstn_all2; [reflexivity| |]; lia.
Qed.

Lemma StronglySorted_app_relates (A : Type) (R : A -> A -> Prop)
    (l1 l2 : list A) :
  StronglySorted R (l1 ++ l2) ->
  forall a b, In a l1 -> In b l2 -> R a b.
Proof.
  induction l1 as [|x l1 IH]; simpl; intros Hs a b Ha Hb; [elim Ha|].
  inversion Hs as [|? ? Hs' Hx]; subst.
  destruct Ha as [<-|Ha].
  - rewrite Forall_forall in Hx. apply Hx, in_or_app; right; exact Hb.
  - apply IH; assumption.
Qed.

(** X17.  The dashboard shows the first five transactions of the filtered view,
    or all of them when there are at most five; when the dates of the
    collection are dates, every transaction it shows is dated as late as,
    or later than, every matching transaction it leaves out. *)
Theorem recentTransactions_are_the_latest :
  forall (toLowerCase : string -> string)
         (arraySort : (Transaction.t -> Transaction.t -> comparison) ->
                      list Transaction.t -> list Transaction.t)
         (getTime : string -> option Z),
    JS.sort_contract arraySort ->
    forall (transactions : list Transaction.t) (searchQuery : string),
      let view :=
        App.filteredTransactions toLowerCase arraySort getTime
                                 transactions searchQuery in
      let recent :=
        App.recentTransactions toLowerCase arraySort getTime
                               transactions searchQuery in
      view = recent ++ skipn 5 view
      /\ List.length recent = Nat.min 5 (List.length view)
      /\ (Forall (dated getTime) transactions ->
          forall a b, In a recent -> In b (skipn 5 view) ->
                      not_older getTime a b).
Proof.
  intros toLowerCase arraySort getTime Hsort l q view recent.
  assert (E : recent = firstn 5 view) by apply slice_range_0_5.
  rewrite E. split; [symmetry; apply firstn_skipn|].
  split; [apply length_firstn|].
  intros Hd. apply StronglySorted_app_relates.
  rewrite firstn_skipn.
  assert (Hm : Forall (dated getTime)
                      (filter (App.matchesQuery toLowerCase q) l)).
  { rewrite Forall_forall in Hd |- *.
    intros t Ht; apply filter_In in Ht; apply Hd, Ht. }
  subst view.
  rewrite (@view_of_dated toLowerCase arraySort getTime Hsort l q Hm).
  apply stable_sort_dated, Hm.
Qed.

(** On a sample: the twenty-one purchases, on a host whose sort is the
    stable sort; the first shown and the first left out. *)
Lemma recentTransactions_are_the_latest_witness :
  let view :=
    App.filteredTransactions Sample.lower (@JS.stable_sort _)
      Sample.isoTime (App.transactions Sample.twentyOneAdded) EmptyString in
  not_older Sample.isoTime
    (nth 0 view Sample.groceries) (nth 5 view Sample.groceries).
Proof.
  destruct (@recentTransactions_are_the_latest
              Sample.lower (@JS.stable_sort _) Sample.isoTime
              (@stable_sort_conforms _)
              (App.transactions Sample.twentyOneAdded) EmptyString)
    as (_ & _ & H).
  apply H.
  - apply dated_by_check. vm_compute. reflexivity.
  - vm_compute. left; reflexivity.
  - vm_compute. left; reflexivity.
Defined.

(** ** The colours of the categories *)

Lemma find_by_name (name : string) :
  match JS.find (fun c => String.eqb (Category.name c) name)
                DEFAULT_CATEGORIES with
  | Some c => In c DEFAULT_CATEGORIES /\ Category.name c = name
  | None => ~ In name (map Category.name DEFAULT_CATEGORIES)
  end.
Proof.
  unfold JS.find.
  destruct (List.find _ DEFAULT_CATEGORIES) as [c|] eqn:E.
  - apply find_some in E as [Hin Hc]. split; [exact Hin|].
    apply String.eqb_eq; exact Hc.
  - intros Hin. apply in_map_iff in Hin as (c & Hc & Hin).
    pose proof (find_none _ _ E c Hin) as H. simpl in H.
    rewrite Hc, String.eqb_refl in H. discriminate H.
Qed.

(** X18.  A row always has a category to take its colour from: the seeded
    category of the transaction's name when there is one, the seeded
    'Other' otherwise.  The pie takes the same colour for a seeded name,
    but for a name that is not seeded it takes '#CBD5E1', which is not the
    colour of 'Other'. *)
Theorem category_colours :
  forall (t : Transaction.t) (v : CategoryValue),
    let entry := CategoryTotal.mk (Transaction.category t) v in
    exists c,
      App.rowCategory t = Some c
      /\ In c DEFAULT_CATEGORIES
      /\ ((In (Transaction.category t) (map Category.name DEFAULT_CATEGORIES)
           /\ Category.name c = Transaction.category t
           /\ App.sliceColor entry = Category.color c)
          \/ (~ In (Transaction.category t)
                   (map Category.name DEFAULT_CATEGORIES)
              /\ Category.name c = "Other"
              /\ Category.color c = "#6B7280"
              /\ App.sliceColor entry = "#CBD5E1")).
Proof.
  intros t v entry. unfold App.rowCategory, App.sliceColor, entry.
  cbn [CategoryTotal.name].
  pose proof (find_by_name (Transaction.category t)) as H.
  destruct (JS.find _ DEFAULT_CATEGORIES) as [c|].
  - destruct H as [Hin Hn]. exists c. split; [reflexivity|].
    split; [exact Hin|]. left.
    split; [rewrite <- Hn; apply in_map; exact Hin|].
    split; [exact Hn|].
    unfold DEFAULT_CATEGORIES in Hin. simpl in Hin.
    repeat (destruct Hin as [<-|Hin]; [reflexivity|]). elim Hin.
  - eexists. split; [reflexivity|].
    split; [do 8 right; left; reflexivity|].
    right. repeat split. exact H.
Qed.

(** ** The chart of the last seven days *)

Example januaryLabel_samples :
  Sample.januaryLabel "2024-01-12" = Some "Jan 12"
  /\ Sample.januaryLabel "2024-02-01" = None
  /\ map Sample.januaryWindow (seq 0 7)
     = ["Jan 09"; "Jan 10"; "Jan 11"; "Jan 12"; "Jan 13"; "Jan 14";
        "Jan 15"].
Proof. repeat split; reflexivity. Qed.

Example chartData_sample :
  option_map (map (fun p => (ChartPoint.name p, ChartPoint.income p,
                             ChartPoint.expense p)))
             (App.chartData Sample.januaryLabel Sample.januaryWindow
                            Sample.threeTransactions)
  = Some [ ("Jan 09", 0, 0); ("Jan 10", 0, 0); ("Jan 11", 0, 0);
           ("Jan 12", 0, 29); ("Jan 13", 0, 0); ("Jan 14", 900, 0);
           ("Jan 15", 0, 0) ]%float.
Proof. reflexivity. Qed.

Section ChartFacts.
Variable dayLabel : string -> option string.
Variable windowLabel : nat -> string.

Lemma dayTransactions_fails (dateStr : string) (l : list Transaction.t) :
  App.dayTransactions dayLabel dateStr l = None
  <-> Exists (fun t => dayLabel (Transaction.date t) = None) l.
Proof.
  induction l as [|t l IH]; simpl.
  - split; [discriminate|intros H; inversion H].
  - destruct (dayLabel (Transaction.date t)) as [lb|] eqn:E.
    + destruct (App.dayTransactions dayLabel dateStr l) as [kept|].
      * split; [discriminate|]. intros H.
        inversion H as [? ? H0|? ? H0]; subst; [congruence|].
        apply IH in H0; discriminate H0.
      * split; [intros _|reflexivity].
        apply Exists_cons_tl, IH; reflexivity.
    + split; [intros _|reflexivity]. apply Exists_cons_hd; exact E.
Qed.

Lemma day_kept_amounts (dateStr : string) (l kept : list Transaction.t) :
  App.dayTransactions dayLabel dateStr l = Some kept ->
  amounts_of_type income kept = day_amounts dayLabel income dateStr l
  /\ amounts_of_type expense kept = day_amounts dayLabel expense dateStr l.
Proof.
  revert kept; induction l as [|t l IH]; simpl; intros kept H.
  - injection H as <-. split; reflexivity.
  - destruct (dayLabel (Transaction.date t)) as [lb|]; [|discriminate H].
    destruct (App.dayTransactions dayLabel dateStr l) as [k|];
      [|discriminate H].
    injection H as <-. destruct (IH k eq_refl) as [Hi He].
    destruct (String.eqb lb dateStr); simpl;
      destruct (Transaction.type t); simpl; rewrite ?Hi, ?He;
      split; reflexivity.
Qed.

Lemma day_totals (dateStr : string) (l kept : list Transaction.t) :
  App.dayTransactions dayLabel dateStr l = Some kept ->
  App.reduce_amounts (filter App.is_income kept)
  = sum_from 0%float (day_amounts dayLabel income dateStr l)
  /\ App.reduce_amounts (filter App.is_expense kept)
     = sum_from 0%float (day_amounts dayLabel expense dateStr l).
Proof.
  intros H. unfold App.reduce_amounts. rewrite !fold_left_sum_from.
  rewrite amounts_of_income, amounts_of_expense.
  destruct (day_kept_amounts _ _ H) as [-> ->]. split; reflexivity.
Qed.

Lemma mapDays_ext (f g : nat -> option ChartPoint.t) (days : list nat) :
  (forall i, In i days -> f i = g i) ->
  App.mapDays f days = App.mapDays g days.
Proof.
  induction days as [|i days IH]; simpl; intros H; [reflexivity|].
  rewrite (H i (or_introl eq_refl)), IH; [reflexivity|].
  intros j Hj; apply H; right; exact Hj.
Qed.

Lemma mapDays_all (g : nat -> ChartPoint.t) (days : list nat) :
  App.mapDays (fun i => Some (g i)) days = Some (map g days).
Proof.
  induction days as [|i days IH]; simpl; [reflexivity|].
  rewrite IH; reflexivity.
Qed.

(** X19.  The chart cannot be computed exactly when the date of some transaction
    has no label, wherever that date lies; otherwise it has seven points,
    named by the seven days of the window in order, each holding the sums
    of the income and of the expenses of the transactions whose label is
    that of the day (the year plays no part). *)
Theorem chartData_points :
  forall transactions : list Transaction.t,
    (App.chartData dayLabel windowLabel transactions = None
     <-> Exists (fun t => dayLabel (Transaction.date t) = None) transactions)
    /\ (Forall (fun t => dayLabel (Transaction.date t) <> None) transactions
        -> App.chartData dayLabel windowLabel transactions
           = Some (map (fun i =>
                          ChartPoint.mk
                            (windowLabel i)
                            (sum_from 0%float
                               (day_amounts dayLabel income (windowLabel i)
                                            transactions))
                            (sum_from 0%float
                               (day_amounts dayLabel expense (windowLabel i)
                                            transactions)))
                       (seq 0 7))).
Proof.
  intros l.
  assert (Hok : Forall (fun t => dayLabel (Transaction.date t) <> None) l ->
                App.chartData dayLabel windowLabel l
                = Some (map (fun i =>
                          ChartPoint.mk
                            (windowLabel i)
                            (sum_from 0%float
                               (day_amounts dayLabel income (windowLabel i) l))
                            (sum_from 0%float
                               (day_amounts dayLabel expense (windowLabel i)
                                            l)))
                       (seq 0 7))).
  { intros Hall. unfold App.chartData.
    rewrite <- mapDays_all. apply mapDays_ext. intros i _.
    unfold App.chartDay.
    destruct (App.dayTransactions dayLabel (windowLabel i) l) as [kept|] eqn:E.
    - destruct (day_totals _ _ E) as [-> ->]. reflexivity.
    - apply dayTransactions_fails in E.
      apply Exists_exists in E as (t & Ht & Hn).
      rewrite Forall_forall in Hall. elim (Hall t Ht Hn). }
  split; [split|exact Hok].
  - intros Hnone.
    destruct (Exists_dec (fun t => dayLabel (Transaction.date t) = None) l)
      as [H|H]; [|exact H|].
    + intros t. destruct (dayLabel (Transaction.date t));
        [right; discriminate|left; reflexivity].
    + rewrite Hok in Hnone; [discriminate Hnone|].
      rewrite Forall_forall. intros t Ht Hn. apply H.
      apply Exists_exists. exists t; split; assumption.
  - intros H. unfold App.chartData; simpl. unfold App.chartDay at 1.
    apply (dayTransactions_fails (windowLabel 0)) in H. rewrite H.
    reflexivity.
Qed.

(** X20.  A transaction whose label is the label of none of the seven days does
    not change the chart. *)
Theorem chartData_ignores_other_days :
  forall (t : Transaction.t) (transactions : list Transaction.t)
         (label : string),
    dayLabel (Transaction.date t) = Some label ->
    (forall i, i < 7 -> windowLabel i <> label) ->
    App.chartData dayLabel windowLabel (t :: transactions)
    = App.chartData dayLabel windowLabel transactions.
Proof.
  intros t l label Ht Hout. unfold App.chartData.
  apply mapDays_ext. intros i Hi. apply in_seq in Hi.
  unfold App.chartDay; simpl. rewrite Ht.
  destruct (String.eqb_spec label (windowLabel i)) as [E|E].
  - elim (Hout i); [lia|congruence].
  - destruct (App.dayTransactions dayLabel (windowLabel i) l); reflexivity.
Qed.
End ChartFacts.

(** On a sample: three transactions of January 2024. *)
Lemma chartData_points_witness :
  App.chartData Sample.januaryLabel Sample.januaryWindow
                Sample.threeTransactions
  <> None.
Proof.
  destruct (@chartData_points Sample.januaryLabel Sample.januaryWindow
              Sample.threeTransactions) as [_ H].
  rewrite H; [discriminate|].
  repeat constructor; vm_compute; discriminate.
Defined.

(** On a sample: a purchase of the 1st of January, a week before the
    window. *)
Lemma chartData_ignores_other_days_witness :
  App.chartData Sample.januaryLabel Sample.januaryWindow
    (Transaction.mk "t-0" "2024-01-01" 60%float "Shopping" "Shoes" expense
     :: Sample.threeTransactions)
  = App.chartData Sample.januaryLabel Sample.januaryWindow
                  Sample.threeTransactions.
Proof.
  apply (@chartData_ignores_other_days
           Sample.januaryLabel Sample.januaryWindow
           (Transaction.mk "t-0" "2024-01-01" 60%float "Shopping" "Shoes"
                           expense)
           Sample.threeTransactions "Jan 01" eq_refl).
  intros i Hi.
  do 7 (destruct i as [|i]; [vm_compute; discriminate|]). lia.
Defined.

(** ** The breakdown by category *)

Example array_index_samples :
  JSObject.array_index "2024" = Some 2024%N
  /\ JSObject.array_index "0" = Some 0%N
  /\ JSObject.array_index "007" = None
  /\ JSObject.array_index "4294967295" = None
  /\ JSObject.array_index "Food" = None.
Proof. repeat split; reflexivity. Qed.

Example entries_sample :
  map fst (JSObject.entries [("Food", 1); ("10", 2); ("Rent", 3); ("9", 4)])
  = ["9"; "10"; "Food"; "Rent"].
Proof. reflexivity. Qed.

Example categoryData_sample :
  App.categoryData (fun _ => false) Sample.threeTransactions
  = [ CategoryTotal.mk "Food & Dining" (Num 29%float) ].
Proof. reflexivity. Qed.

Section ObjectFacts.
Variable V : Type.

Lemma set_own_keys (k : string) (v : V) (o : JSObject.t V) :
  map fst (JSObject.set_own k v o)
  = if in_dec String.string_dec k (map fst o)
    then map fst o else map fst o ++ [k].
Proof.
  induction o as [|[k' v'] o IH]; simpl; [reflexivity|].
  destruct (String.eqb_spec k' k) as [E|E]; simpl.
  - subst k'. destruct (String.string_dec k k); [reflexivity|congruence].
  - rewrite IH. destruct (String.string_dec k' k) as [E'|E']; [congruence|].
    destruct (in_dec String.string_dec k (map fst o)); reflexivity.
Qed.

Lemma set_own_NoDup (k : string) (v : V) (o : JSObject.t V) :
  NoDup (map fst o) -> NoDup (map fst (JSObject.set_own k v o)).
Proof.
  intros H. rewrite set_own_keys.
  destruct (in_dec String.string_dec k (map fst o)) as [Hin|Hin];
    [exact H|].
  apply NoDup_app; [exact H | repeat constructor; intros [] |].
  intros x Hx [<-|[]]. exact (Hin Hx).
Qed.

Lemma get_own_set_own (k k' : string) (v : V) (o : JSObject.t V) :
  JSObject.get_own k' (JSObject.set_own k v o)
  = if String.eqb k k' then Some v else JSObject.get_own k' o.
Proof.
  induction o as [|[k0 v0] o IH]; simpl.
  - reflexivity.
  - destruct (String.eqb_spec k0 k) as [E|E]; simpl.
    + subst k0. destruct (String.eqb k k'); reflexivity.
    + rewrite IH. destruct (String.eqb_spec k0 k') as [E'|E'];
        [|reflexivity].
      subst k0. destruct (String.eqb_spec k k'); [congruence|reflexivity].
Qed.

Lemma get_own_In (k : string) (v : V) (o : JSObject.t V) :
  NoDup (map fst o) ->
  (JSObject.get_own k o = Some v <-> In (k, v) o).
Proof.
  induction o as [|[k0 v0] o IH]; simpl; intros H.
  - split; [discriminate|tauto].
  - inversion H as [|? ? Hn Ho]; subst.
    destruct (String.eqb_spec k0 k) as [E|E].
    + subst k0. split.
      * intros [= ->]. left; reflexivity.
      * intros [[= ->]|Hin]; [reflexivity|].
        elim Hn. apply (in_map fst) in Hin; exact Hin.
    + rewrite (IH Ho). split; [tauto|].
      intros [[= E' _]|Hin]; [congruence|exact Hin].
Qed.

Lemma filter_partition_perm (A : Type) (p : A -> bool) (l : list A) :
  Permutation (filter p l ++ filter (fun x => negb (p x)) l) l.
Proof.
  induction l as [|x l IH]; simpl; [constructor|].
  destruct (p x); simpl.
  - constructor; exact IH.
  - eapply perm_trans; [apply Permutation_sym, Permutation_middle|].
    constructor; exact IH.
Qed.

(** [Object.entries] lists every own property, once. *)
Lemma entries_perm (o : JSObject.t V) : Permutation (JSObject.entries o) o.
Proof.
  unfold JSObject.entries.
  eapply perm_trans; [|apply filter_partition_perm].
  apply Permutation_app_tail, stable_sort_perm.
Qed.
End ObjectFacts.

Section CategoryFacts.
Variable inheritedKey : string -> bool.

Lemma assign_NoDup (data : JSObject.t CategoryValue) (k : string)
    (v : CategoryValue) :
  NoDup (map fst data) -> NoDup (map fst (App.assignCategory data k v)).
Proof.
  unfold App.assignCategory. destruct (String.eqb k "__proto__"); [auto|].
  apply set_own_NoDup.
Qed.

Lemma assign_keys (data : JSObject.t CategoryValue) (k c : string)
    (v : CategoryValue) :
  In c (map fst (App.assignCategory data k v))
  <-> In c (map fst data) \/ (c = k /\ c <> "__proto__").
Proof.
  unfold App.assignCategory.
  destruct (String.eqb_spec k "__proto__") as [E|E].
  - subst k. tauto.
  - rewrite set_own_keys.
    destruct (in_dec String.string_dec k (map fst data)) as [Hin|Hin].
    + split; [tauto|]. intros [H|[-> _]]; assumption.
    + rewrite in_app_iff; simpl. split.
      * intros [H|[<-|[]]]; [left; exact H|right; split; congruence].
      * intros [H|[-> _]]; [left; exact H|right; left; reflexivity].
Qed.

Lemma categoryFold_keys (es : list Transaction.t)
    (data : JSObject.t CategoryValue) (c : string) :
  NoDup (map fst data) ->
  let data' :=
    fold_left
      (fun data t =>
         App.assignCategory data (Transaction.category t)
           (App.addToCategory inheritedKey data (Transaction.category t)
                              (Transaction.amount t)))
      es data in
  NoDup (map fst data')
  /\ (In c (map fst data')
      <-> In c (map fst data)
          \/ (c <> "__proto__"
              /\ exists t, In t es /\ Transaction.category t = c)).
Proof.
  revert data; induction es as [|t es IH]; intros data Hnd; simpl.
  - split; [exact Hnd|]. split; [tauto|].
    intros [H|(_ & t & [] & _)]; exact H.
  - destruct (IH _ (@assign_NoDup data (Transaction.category t)
                      (App.addToCategory inheritedKey data
                         (Transaction.category t) (Transaction.amount t))
                      Hnd)) as [Hn Hk].
    split; [exact Hn|]. rewrite Hk, assign_keys. split.
    + intros [[H|[-> Hp]]|(Hp & u & Hu & Eu)].
      * left; exact H.
      * right; split; [exact Hp|]. exists t; split; [left|]; reflexivity.
      * right; split; [exact Hp|]. exists u; split; [right|]; assumption.
    + intros [H|(Hp & u & [<-|Hu] & Eu)].
      * left; left; exact H.
      * left; right; split; [symmetry; exact Eu|exact Hp].
      * right; split; [exact Hp|]. exists u; split; assumption.
Qed.

(** X21.  The breakdown has one entry per category that has an expense, and no
    other entry: no category appears twice, none appears for income alone
    or with nothing spent, and the category named '__proto__' never
    appears, whatever was spent in it. *)
Theorem categoryData_names :
  forall transactions : list Transaction.t,
    NoDup (map CategoryTotal.name
               (App.categoryData inheritedKey transactions))
    /\ (forall c,
          In c (map CategoryTotal.name
                    (App.categoryData inheritedKey transactions))
          <-> c <> "__proto__" /\ has_expense c transactions).
Proof.
  intros l. unfold App.categoryData. rewrite map_map; simpl.
  change (map (fun x : string * CategoryValue => fst x)) with
    (map (@fst string CategoryValue)).
  destruct (@categoryFold_keys (filter App.is_expense l) [] EmptyString
              (NoDup_nil _)) as [Hn _].
  fold (App.categoryObject inheritedKey l) in Hn.
  assert (Hp : Permutation
                 (map fst (JSObject.entries
                             (App.categoryObject inheritedKey l)))
                 (map fst (App.categoryObject inheritedKey l)))
    by apply Permutation_map, entries_perm.
  split.
  - eapply Permutation_NoDup; [apply Permutation_sym, Hp | exact Hn].
  - intros c.
    destruct (@categoryFold_keys (filter App.is_expense l) [] c
                (NoDup_nil _)) as [_ Hk].
    fold (App.categoryObject inheritedKey l) in Hk.
    split.
    + intros H. eapply Permutation_in in H; [|exact Hp].
      apply Hk in H as [[]|(Hp' & t & Ht & Et)].
      split; [exact Hp'|]. apply filter_In in Ht as [Ht Hx].
      exists t. repeat split; try assumption.
      unfold App.is_expense in Hx.
      destruct (Transaction.type t); [discriminate Hx|reflexivity].
    + intros (Hp' & t & Ht & Ety & Et).
      eapply Permutation_in; [apply Permutation_sym, Hp|].
      apply Hk. right. split; [exact Hp'|]. exists t. split; [|exact Et].
      apply filter_In. split; [exact Ht|].
      unfold App.is_expense. rewrite Ety. reflexivity.
Qed.
End CategoryFacts.

(** *** Sums of finite amounts *)

Lemma binary_round_aux_not_nan (sx : bool) (m e : Z) (l : location) :
  (0 <= m)%Z -> binary_round_aux prec emax sx m e l <> S754_nan.
Proof.
  intros H. unfold binary_round_aux.
  pose proof (@shr_fexp_nonneg m e l H) as H1.
  destruct (shr_fexp prec emax m e l) as [mrs' e'] eqn:E1; simpl in H1.
  pose proof (@shr_fexp_nonneg _ e' loc_Exact
                (@round_nearest_even_nonneg _ (loc_of_shr_record mrs') H1))
    as H2.
  destruct (shr_fexp prec emax _ e' loc_Exact) as [mrs'' e''] eqn:E2.
  simpl in H2.
  destruct (shr_m mrs'') as [|p|p]; [discriminate| |lia].
  destruct (e'' <=? emax - prec)%Z; discriminate.
Qed.

Lemma binary_normalize_not_nan (m e : Z) (szero : bool) :
  binary_normalize prec emax m e szero <> S754_nan.
Proof.
  destruct m as [|p|p]; simpl; [discriminate| |];
    unfold binary_round;
    destruct (shl_align _ _ _) as [mz ez];
    apply binary_round_aux_not_nan; lia.
Qed.

Lemma SFadd_not_nan (Y A : spec_float) :
  Y <> S754_nan -> sf_is_finite A = true ->
  SFadd prec emax Y A <> S754_nan.
Proof.
  destruct Y as [sy|sy| |sy my ey], A as [sa|sa| |sa ma ea]; simpl;
    try discriminate; try congruence; intros _ _.
  - destruct sy, sa; discriminate.
  - apply binary_normalize_not_nan.
Qed.

Lemma is_nan_iff (x : float) :
  is_nan x = true <-> Prim2SF x = S754_nan.
Proof.
  unfold is_nan. rewrite eqb_spec. unfold SFeqb.
  destruct (Prim2SF x) as [s|s| |s m e] eqn:E;
    try (rewrite SFcompare_refl by discriminate; simpl;
         split; discriminate).
  simpl. split; reflexivity.
Qed.

Lemma is_finite_spec (a : float) :
  is_finite a = true -> sf_is_finite (Prim2SF a) = true.
Proof.
  unfold is_finite, is_infinity. rewrite negb_true_iff, orb_false_iff.
  intros [Hn Hi]. rewrite eqb_spec, abs_spec in Hi.
  change (Prim2SF infinity) with (S754_infinity false) in Hi.
  destruct (Prim2SF a) as [s|s| |s m e] eqn:E; try reflexivity.
  - discriminate Hi.
  - assert (H : is_nan a = true) by (apply is_nan_iff; exact E).
    congruence.
Qed.

Lemma eqb_zero_iff (x : float) :
  (x =? 0)%float = true <-> exists s, Prim2SF x = S754_zero s.
Proof.
  split; [apply eqb_zero_spec|]. intros [s E].
  rewrite eqb_spec, E. reflexivity.
Qed.

(** Adding a finite amount to [+0] or to a zero of either sign gives the
    same number, or two zeros. *)
Lemma zero_plus (y a : float) :
  (y =? 0)%float = true -> is_finite a = true ->
  same_or_zeros (0 + a)%float (y + a)%float.
Proof.
  intros Hy Ha. apply eqb_zero_spec in Hy as [sy Hy].
  apply is_finite_spec in Ha.
  destruct (Prim2SF a) as [sa|sa| |sa ma ea] eqn:E; try discriminate Ha.
  - right. split; apply eqb_zero_iff; rewrite add_spec, ?Hy, E.
    + change (Prim2SF 0) with (S754_zero false).
      destruct sa; simpl; eauto.
    + destruct sy, sa; simpl; eauto.
  - left. apply Prim2SF_inj. rewrite !add_spec, Hy, E. reflexivity.
Qed.

Lemma add_not_nan (y a : float) :
  is_nan y = false -> is_finite a = true -> is_nan (y + a)%float = false.
Proof.
  intros Hy Ha. apply is_finite_spec in Ha.
  apply not_true_iff_false. rewrite is_nan_iff, add_spec.
  apply SFadd_not_nan; [|exact Ha].
  intros E. apply is_nan_iff in E. congruence.
Qed.

Lemma falsy_not_nan_is_zero (x : float) :
  JS.truthy_number x = false -> is_nan x = false -> (x =? 0)%float = true.
Proof.
  unfold JS.truthy_number, is_zero. change zero with 0%float.
  destruct (x =? 0)%float, (is_nan x); simpl; congruence.
Qed.

(** One more finite amount keeps the total of the breakdown and the plain
    sum the same, or both zero, and the plain sum a number. *)
Lemma totals_step (x y a : float) :
  same_or_zeros x y -> is_nan y = false -> is_finite a = true ->
  same_or_zeros
    (if JS.truthy_number x then (x + a)%float else (0 + a)%float)
    (y + a)%float
  /\ is_nan (y + a)%float = false.
Proof.
  intros R Hy Ha. split; [|apply add_not_nan; assumption].
  destruct R as [->|[Hx0 Hy0]].
  - destruct (JS.truthy_number y) eqn:T; [left; reflexivity|].
    apply zero_plus; [|exact Ha].
    apply falsy_not_nan_is_zero; assumption.
  - assert (T : JS.truthy_number x = false).
    { unfold JS.truthy_number, is_zero. change zero with 0%float.
      rewrite Hx0. reflexivity. }
    rewrite T. apply zero_plus; assumption.
Qed.

Lemma same_or_zeros_eqb (x y : float) :
  same_or_zeros x y -> is_nan y = false -> (x =? y)%float = true.
Proof.
  intros [->|[Hx Hy]] Hn.
  - unfold is_nan in Hn. apply negb_false_iff in Hn. exact Hn.
  - apply eqb_zero_spec in Hx as [sx Hx].
    apply eqb_zero_spec in Hy as [sy Hy].
    rewrite eqb_spec, Hx, Hy. reflexivity.
Qed.

(** The total the breakdown keeps and the plain sum from the left, over
    finite amounts. *)
Lemma totals_agree (amounts : list float) (x y : float) :
  same_or_zeros x y -> is_nan y = false ->
  Forall (fun a => is_finite a = true) amounts ->
  exists x',
    fold_left (fun v a => Some (add_to_total v a)) amounts (Some (Num x))
    = Some (Num x')
    /\ same_or_zeros x' (sum_from y amounts)
    /\ is_nan (sum_from y amounts) = false.
Proof.
  revert x y; induction amounts as [|a l IH]; simpl; intros x y R Hy Hf.
  - exists x. auto.
  - inversion Hf as [|? ? Ha Hl]; subst.
    destruct (totals_step a R Hy Ha) as [R' Hy'].
    destruct (JS.truthy_number x); apply (IH _ _ R' Hy' Hl).
Qed.

Section CategoryValues.
Variable inheritedKey : string -> bool.

Lemma addToCategory_plain (data : JSObject.t CategoryValue) (c : string)
    (a : float) :
  c <> "__proto__" -> inheritedKey c = false ->
  App.addToCategory inheritedKey data c a
  = add_to_total (JSObject.get_own c data) a.
Proof.
  intros Hp Hi. unfold App.addToCategory, add_to_total.
  destruct (JSObject.get_own c data) as [[x|]|]; try reflexivity.
  rewrite Hi. destruct (String.eqb_spec c "__proto__"); [congruence|].
  reflexivity.
Qed.

Lemma get_after_assign (data : JSObject.t CategoryValue) (k c : string)
    (v : CategoryValue) :
  c <> "__proto__" ->
  JSObject.get_own c (App.assignCategory data k v)
  = if String.eqb k c then Some v else JSObject.get_own c data.
Proof.
  intros Hp. unfold App.assignCategory.
  destruct (String.eqb_spec k "__proto__") as [E|E].
  - subst k. destruct (String.eqb_spec "__proto__" c); [congruence|].
    reflexivity.
  - apply get_own_set_own.
Qed.

Lemma categoryFold_value (es : list Transaction.t)
    (data : JSObject.t CategoryValue) (c : string) :
  c <> "__proto__" -> inheritedKey c = false ->
  JSObject.get_own c
    (fold_left
       (fun data t =>
          App.assignCategory data (Transaction.category t)
            (App.addToCategory inheritedKey data (Transaction.category t)
                               (Transaction.amount t)))
       es data)
  = fold_left (fun v a => Some (add_to_total v a))
      (map Transaction.amount
           (filter (fun t => String.eqb (Transaction.category t) c) es))
      (JSObject.get_own c data).
Proof.
  intros Hp Hi. revert data; induction es as [|t es IH]; intros data; simpl;
    [reflexivity|].
  rewrite IH, get_after_assign by exact Hp.
  destruct (String.eqb_spec (Transaction.category t) c) as [E|E]; simpl;
    [|reflexivity].
  rewrite E, addToCategory_plain by assumption. reflexivity.
Qed.

Lemma expenses_of_category_filter (c : string) (l : list Transaction.t) :
  map Transaction.amount
      (filter (fun t => String.eqb (Transaction.category t) c)
              (filter App.is_expense l))
  = expenses_of_category c l.
Proof.
  induction l as [|t l IH]; simpl; [reflexivity|].
  unfold App.is_expense at 1.
  destruct (Transaction.type t); simpl; [exact IH|].
  destruct (String.eqb (Transaction.category t) c); simpl;
    rewrite IH; reflexivity.
Qed.

(** X22.  For a category that is not the name of an inherited property and whose
    expenses are finite amounts, the breakdown holds a number, and that
    number is numerically equal to the spent amount of a budget of that
    category. *)
Theorem categoryData_value_is_spent :
  forall (transactions : list Transaction.t) (c : string),
    c <> "__proto__" ->
    inheritedKey c = false ->
    Forall (fun a => is_finite a = true)
           (expenses_of_category c transactions) ->
    has_expense c transactions ->
    exists x,
      In (CategoryTotal.mk c (Num x))
         (App.categoryData inheritedKey transactions)
      /\ forall b,
           Budget.category b = c ->
           Forall (fun p => (x =? BudgetProgress.spent p)%float = true)
                  (App.budgetProgress [b] transactions).
Proof.
  intros l c Hp Hi Hf (t & Ht & Ety & Ec).
  pose proof (@categoryFold_value (filter App.is_expense l) [] c Hp Hi) as G.
  fold (App.categoryObject inheritedKey l) in G.
  rewrite expenses_of_category_filter in G. simpl in G.
  destruct (expenses_of_category c l) as [|a amounts] eqn:E.
  { exfalso. clear G Hf. revert E. induction l as [|u l IH]; [elim Ht|].
    simpl. destruct Ht as [->|Ht].
    - rewrite Ety, Ec, String.eqb_refl. discriminate.
    - destruct (Transaction.type u); [apply IH; exact Ht|].
      destruct (String.eqb (Transaction.category u) c);
        [discriminate|apply IH; exact Ht]. }
  apply Forall_cons_iff in Hf as [Ha Hl]. simpl in G.
  assert (Hn : is_nan (0 + a)%float = false)
    by (apply add_not_nan; [reflexivity|exact Ha]).
  destruct (@totals_agree amounts (0 + a)%float (0 + a)%float
              (or_introl eq_refl) Hn Hl) as (x & Hx & R & Hs).
  rewrite Hx in G. exists x. split.
  - unfold App.categoryData.
    apply (in_map (fun kv => CategoryTotal.mk (fst kv) (snd kv))
                  _ (c, Num x)).
    eapply Permutation_in; [apply Permutation_sym, entries_perm|].
    apply get_own_In; [|exact G].
    apply (@categoryFold_keys inheritedKey (filter App.is_expense l) []
             EmptyString (NoDup_nil _)).
  - intros b Hb. unfold App.budgetProgress; simpl.
    constructor; [|constructor]. simpl.
    rewrite Hb, spent_is_sum_of_category, E. simpl.
    apply same_or_zeros_eqb; assumption.
Qed.
End CategoryValues.

(** On a sample: the two purchases of food of the search example. *)
Lemma categoryData_value_is_spent_witness :
  exists x,
    In (CategoryTotal.mk "Food & Dining" (Num x))
       (App.categoryData (fun _ => false) Sample.threeTransactions)
    /\ forall b,
         Budget.category b = "Food & Dining" ->
         Forall (fun p => (x =? BudgetProgress.spent p)%float = true)
                (App.budgetProgress [b] Sample.threeTransactions).
Proof.
  apply (@categoryData_value_is_spent (fun _ => false)
           Sample.threeTransactions "Food & Dining").
  - discriminate.
  - reflexivity.
  - repeat constructor.
  - exists Sample.groceries. repeat split. left; reflexivity.
Defined.

(** ** Searching for a transaction just added *)

(** X23.  A transaction that was just added is found by every query whose
    lower-casing occurs in its lower-cased description, in particular by
    its description itself. *)
Theorem added_transaction_is_found :
  forall (toLowerCase : string -> string)
         (arraySort : (Transaction.t -> Transaction.t -> comparison) ->
                      list Transaction.t -> list Transaction.t)
         (getTime : string -> option Z) (uuid today : string)
         (s : App.State) (x : float) (d q : string),
    JS.sort_contract arraySort ->
    PartialTransaction.amount (App.newTx s) = Some x ->
    (x =? 0)%float = false ->
    is_nan x = false ->
    PartialTransaction.description (App.newTx s) = Some d ->
    d <> EmptyString ->
    q = d \/ occurs_lowered toLowerCase q d ->
    In (Transaction.mk
          uuid
          (with_default (PartialTransaction.date (App.newTx s)) today)
          x
          (with_default (PartialTransaction.category (App.newTx s)) "Other")
          d
          (PartialTransaction.type (App.newTx s)))
       (App.filteredTransactions
          toLowerCase arraySort getTime
          (App.transactions (App.handleAddTransaction uuid today s)) q).
Proof.
  intros toLowerCase arraySort getTime uuid today s x d q Hsort Hx Hz Hn Hd
         Hne Hq.
  assert (Hv : valid_input (App.newTx s)).
  { split; [exists x | exists d]; auto. }
  rewrite (@handleAddTransaction_valid uuid today s Hv); simpl.
  rewrite Hx, Hd, !or_string_with_default; simpl.
  replace (match d with
           | EmptyString => EmptyString
           | String _ _ => d
           end) with d by (destruct d; reflexivity).
  apply view_In; [exact Hsort|].
  split; [left; reflexivity|].
  apply matchesQuery_iff. left. simpl.
  destruct Hq as [->|Hq]; [|exact Hq].
  exists EmptyString, EmptyString. simpl.
  clear. induction (toLowerCase d) as [|c r IH]; simpl; congruence.
Qed.

(** On a sample: a lunch searched for in capitals. *)
Lemma added_transaction_is_found_witness :
  In (Transaction.mk "t-1" "2024-01-14" 40%float "Food & Dining" "Lunch"
                     expense)
     (App.filteredTransactions
        Sample.lower (@Sample.engineSort _) Sample.isoTime
        (App.transactions
           (App.handleAddTransaction "t-1" Sample.today
              (App.setNewTx Sample.lunchForm
                            (App.initialState Sample.today))))
        "LUNCH").
Proof.
  apply (@added_transaction_is_found
           Sample.lower (@Sample.engineSort _) Sample.isoTime
           "t-1" Sample.today
           (App.setNewTx Sample.lunchForm (App.initialState Sample.today))
           40%float "Lunch" "LUNCH" (@engineSort_conforms _)
           eq_refl eq_refl eq_refl eq_refl).
  - discriminate.
  - right. exists EmptyString, EmptyString. reflexivity.
Defined.

(** ** The percentage of a budget with a limit *)

(** On a sample: the budget of the specification's scenario, 40 spent of a
    limit of 100. *)
Lemma budgetProgress_in_range_witness :
  let p := BudgetProgress.mk "s-3" "Food" 100%float 40%float 40%float in
  (0 <=? BudgetProgress.percentage p)%float = true
  /\ (BudgetProgress.percentage p <=? 100)%float = true.
Proof.
  intros p.
  apply (@budgetProgress_in_range
           [Sample.scenarioBudget] Sample.scenarioTransactions p).
  - left; reflexivity.
  - reflexivity.
  - reflexivity.
  - reflexivity.
Defined.
